(** * The course notebooks, embedded

    The repository is a set of teaching notebooks.  Their code is embedded
    in three modules:

    - [Py]: the notebook on object-oriented programming (classes [Complex],
      [Dog], [Sequence], [Dna], [Protein], [Reverser]), over a small model
      of the Python object store: a heap of class, instance and list
      objects, attribute lookup through the dictionary of the instance and
      then the classes of the method resolution order, exceptions, and the
      global namespace of the notebook.  [print] only observes values and
      is left out;
    - [Img]: the notebook on image analysis (background subtraction,
      thresholding, seeds and cleaning of the watershed, [props2dict], the
      ground truth of the classifier), over arrays as lists;
    - [Nb]: the calls that the code cells of the three notebooks make, with
      what each call does outside the memory of the program.

    The routines of the libraries (filters, watershed, the classifier) are
    not code of the repository: they are parameters of the sections that
    use them, with what the library documents of them as hypotheses. *)

From Stdlib Require Import ZArith Lia List Ascii String Floats.
From stdpp Require Import gmap strings list sorting.

Set Warnings "-inexact-float,-clear-no-such-hyp".

Open Scope Z_scope.

(** ** The Python object model *)

Module Py.

(** A Python [str] is a sequence of Unicode code points. *)
Definition pystr := list N.

(** Literals of the notebooks are ASCII; [str "abc"] is the Python string 'abc'. *)
Definition str (s : string) : pystr :=
  map Ascii.N_of_ascii (String.list_ascii_of_string s).

Abbreviation loc := positive.

Inductive value :=
| VNone
| VBool (b : bool)
| VInt (n : Z)
| VFloat (x : float)
| VStr (s : pystr)
| VRef (l : loc).

(** Heap objects.  A class keeps its method resolution order (itself first,
    then its bases), computed when the class statement runs, and its
    dictionary of class variables.  Methods are the Rocq functions below and
    are not stored in the dictionary. *)
Inductive object :=
| OClass (name : string) (mro : list loc) (dict : gmap string value)
| OInstance (cls : loc) (dict : gmap string value)
| OList (items : list value).

Inductive exn :=
| TypeError (callee : string) (missing : list string)
| AttributeError (attr : string)
| NameError (name : string)
| ValueError (callee : string).

Record state := mkState {
  heap : gmap loc object;
  globals : gmap string value
}.

Inductive outcome (A : Type) :=
| Ok (a : A)
| Raise (e : exn).
Arguments Ok {A} a.
Arguments Raise {A} e.

(** Computations thread the state; an exception keeps the state reached. *)
Definition M (A : Type) : Type := state -> outcome A * state.

Definition ret {A} (a : A) : M A := fun s => (Ok a, s).

Definition bind {A B} (m : M A) (k : A -> M B) : M B :=
  fun s => match m s with
           | (Ok a, s') => k a s'
           | (Raise e, s') => (Raise e, s')
           end.

Definition raise {A} (e : exn) : M A := fun s => (Raise e, s).

Declare Scope py_scope.
Delimit Scope py_scope with py.
Notation "x <- m ;; k" := (bind m (fun x => k))
  (at level 100, m at next level, right associativity) : py_scope.
Notation "m ;; k" := (bind m (fun _ => k))
  (at level 100, right associativity) : py_scope.
Open Scope py_scope.

(** *** Heap primitives *)

Definition fresh_loc (s : state) : loc := fresh (dom (heap s)).

Definition alloc (o : object) : M value :=
  fun s => let l := fresh_loc s in
           (Ok (VRef l), mkState (<[l := o]> (heap s)) (globals s)).

Definition load_name (x : string) : M value :=
  fun s => match globals s !! x with
           | Some v => (Ok v, s)
           | None => (Raise (NameError x), s)
           end.

Definition store_name (x : string) (v : value) : M unit :=
  fun s => (Ok tt, mkState (heap s) (<[x := v]> (globals s))).

(** Lookup of [name] in the dictionaries of the classes of [mro], in order. *)
Fixpoint mro_lookup (h : gmap loc object) (mro : list loc) (name : string)
  : option value :=
  match mro with
  | [] => None
  | c :: rest =>
      match h !! c with
      | Some (OClass _ _ d) =>
          match d !! name with
          | Some v => Some v
          | None => mro_lookup h rest name
          end
      | _ => mro_lookup h rest name
      end
  end.

Definition type_mro (h : gmap loc object) (c : loc) : list loc :=
  match h !! c with
  | Some (OClass _ mro _) => mro
  | _ => []
  end.

(** [v.name]: the instance dictionary first, then the classes. *)
Definition getattr (v : value) (name : string) : M value :=
  fun s =>
    match v with
    | VRef l =>
        match heap s !! l with
        | Some (OInstance c d) =>
            match d !! name with
            | Some x => (Ok x, s)
            | None =>
                match mro_lookup (heap s) (type_mro (heap s) c) name with
                | Some x => (Ok x, s)
                | None => (Raise (AttributeError name), s)
                end
            end
        | Some (OClass _ mro _) =>
            match mro_lookup (heap s) mro name with
            | Some x => (Ok x, s)
            | None => (Raise (AttributeError name), s)
            end
        | _ => (Raise (AttributeError name), s)
        end
    | _ => (Raise (AttributeError name), s)
    end.

(** [v.name = x]: always written to the dictionary of the object itself. *)
Definition setattr (v : value) (name : string) (x : value) : M unit :=
  fun s =>
    match v with
    | VRef l =>
        match heap s !! l with
        | Some (OInstance c d) =>
            (Ok tt, mkState (<[l := OInstance c (<[name := x]> d)]> (heap s)) (globals s))
        | Some (OClass n mro d) =>
            (Ok tt, mkState (<[l := OClass n mro (<[name := x]> d)]> (heap s)) (globals s))
        | _ => (Raise (AttributeError name), s)
        end
    | _ => (Raise (AttributeError name), s)
    end.

(** [v.append(x)] on a list object: the list is updated in place. *)
Definition list_append (v : value) (x : value) : M unit :=
  fun s =>
    match v with
    | VRef l =>
        match heap s !! l with
        | Some (OList items) =>
            (Ok tt, mkState (<[l := OList (items ++ [x])]> (heap s)) (globals s))
        | _ => (Raise (AttributeError "append"), s)
        end
    | _ => (Raise (AttributeError "append"), s)
    end.

(** The items of a list object, as [print] would show them. *)
Definition list_items (v : value) : M (list value) :=
  fun s =>
    match v with
    | VRef l =>
        match heap s !! l with
        | Some (OList items) => (Ok items, s)
        | _ => (Raise (TypeError "list" []), s)
        end
    | _ => (Raise (TypeError "list" []), s)
    end.

(** The class statement: [class name(base): dict], bound to [name]. *)
Definition new_class (name : string) (base : option value)
    (dict : gmap string value) : M value :=
  fun s =>
    let l := fresh_loc s in
    let base_mro :=
      match base with
      | Some (VRef b) => type_mro (heap s) b
      | _ => []
      end in
    (Ok (VRef l),
     mkState (<[l := OClass name (l :: base_mro) dict]> (heap s))
             (<[name := VRef l]> (globals s))).

(** A bare instance of the class [c] (what [object.__new__] returns). *)
Definition instantiate (c : value) : M value :=
  match c with
  | VRef l => alloc (OInstance l ∅)
  | _ => raise (TypeError "__new__" [])
  end.

(** *** Name mangling

    Inside the body of class [cls], an identifier that starts with two
    underscores and does not end with two underscores is rewritten to
    [_cls] followed by the identifier, the class name stripped of its
    leading underscores; a class name made of underscores only leaves the
    identifier as it is. *)
Fixpoint lstrip_underscore (s : string) : string :=
  match s with
  | String "_"%char rest => lstrip_underscore rest
  | _ => s
  end.

Definition ends_with_dunder (s : string) : bool :=
  match rev (String.list_ascii_of_string s) with
  | "_"%char :: "_"%char :: _ => true
  | _ => false
  end.

Definition starts_with_dunder (s : string) : bool :=
  match s with
  | String "_"%char (String "_"%char _) => true
  | _ => false
  end.

Definition mangle (cls attr : string) : string :=
  if starts_with_dunder attr && negb (ends_with_dunder attr) then
    match lstrip_underscore cls with
    | EmptyString => attr
    | c => String "_"%char (c +:+ attr)
    end
  else attr.

(** *** The operator [==] on values

    Numbers ([bool], [int], [float]) compare by numeric value, a [float]
    against an [int] exactly; strings compare code point by code point;
    [None] equals only itself; references compare by identity, as objects
    do whose class does not define [__eq__].  (The comparison of two list
    objects by their items is not modelled: the notebook compares strings.) *)
Inductive num :=
| NumZ (n : Z)
| NumF (x : float).

Definition as_num (v : value) : option num :=
  match v with
  | VBool b => Some (NumZ (if b then 1 else 0))
  | VInt n => Some (NumZ n)
  | VFloat x => Some (NumF x)
  | _ => None
  end.

Definition float_eq_Z (x : float) (n : Z) : bool :=
  match Prim2SF x with
  | S754_zero _ => n =? 0
  | S754_finite sg m e =>
      let v := if sg then Z.neg m else Z.pos m in
      if 0 <=? e then n =? v * 2 ^ e else n * 2 ^ (- e) =? v
  | _ => false
  end.

Definition num_eq (a b : num) : bool :=
  match a, b with
  | NumZ m, NumZ n => m =? n
  | NumF x, NumF y => PrimFloat.eqb x y
  | NumF x, NumZ n | NumZ n, NumF x => float_eq_Z x n
  end.

Definition py_eq (a b : value) : bool :=
  match as_num a, as_num b with
  | Some x, Some y => num_eq x y
  | _, _ =>
      match a, b with
      | VNone, VNone => true
      | VStr s, VStr t => bool_decide (s = t)
      | VRef l, VRef l' => bool_decide (l = l')
      | _, _ => false
      end
  end.

(** *** Strings *)

(** [v[::-1]]: a reversed copy of a string or of a list. *)
Definition slice_reverse (v : value) : M value :=
  match v with
  | VStr s => ret (VStr (rev s))
  | VRef l =>
      fun st => match heap st !! l with
                | Some (OList items) => alloc (OList (rev items)) st
                | _ => (Raise (TypeError "__getitem__" []), st)
                end
  | _ => raise (TypeError "__getitem__" [])
  end.

(** [str.maketrans(x, y)]: the table that sends the i-th code point of [x]
    to the i-th of [y]; a later entry overrides an earlier one.  The two
    strings must have the same length. *)
Definition maketrans (x y : pystr) : option (gmap N N) :=
  if bool_decide (length x = length y)
  then Some (foldl (fun t kv => <[kv.1 := kv.2]> t) ∅ (zip x y))
  else None.

(** [s.translate(table)]: code points absent from the table are kept. *)
Definition translate (table : gmap N N) (s : pystr) : pystr :=
  map (fun c => default c (table !! c)) s.

(** ** The classes of the object-oriented programming notebook *)

(** The call [C(args)] of a class bound to the global name [cname]: a new
    instance is made, then [__init__] runs on it. *)
Definition construct (cname : string) (init : value -> M unit) : M value :=
  c <- load_name cname ;;
  self <- instantiate c ;;
  init self ;;
  ret self.

(** *** Complex *)

Definition class_Complex : M value := new_class "Complex" None ∅.

(** [__init__(self, realpart, imagpart)], called with the positional
    arguments [args]. *)
Definition Complex___init__ (args : list value) (self : value) : M unit :=
  match args with
  | [realpart; imagpart] =>
      setattr self "r" realpart ;;
      setattr self "i" imagpart
  | [] => raise (TypeError "__init__" ["realpart"; "imagpart"])
  | [_] => raise (TypeError "__init__" ["imagpart"])
  | _ => raise (TypeError "__init__" [])
  end.

Definition Complex (args : list value) : M value :=
  construct "Complex" (Complex___init__ args).

(** The cell [x = Complex()]. *)
Definition cell_Complex_noargs : M unit :=
  x <- Complex [] ;;
  store_name "x" x.

(** The cell [x = Complex(realpart, imagpart); x.r, x.i]. *)
Definition cell_Complex_args (realpart imagpart : value) : M (value * value) :=
  x <- Complex [realpart; imagpart] ;;
  store_name "x" x ;;
  x <- load_name "x" ;;
  r <- getattr x "r" ;;
  x <- load_name "x" ;;
  i <- getattr x "i" ;;
  ret (r, i).

(** *** Dog, with the mutable class variable *)

Definition class_Dog : M value :=
  tricks <- alloc (OList []) ;;
  new_class "Dog" None
    (<["tricks" := tricks]> (<["kind" := VStr (str "canine")]> ∅)).

Definition Dog___init__ (name : value) (self : value) : M unit :=
  setattr self "name" name.

Definition Dog (name : value) : M value :=
  construct "Dog" (Dog___init__ name).

Definition Dog_add_trick (self trick : value) : M unit :=
  tricks <- getattr self "tricks" ;;
  list_append tricks trick.

(** The cell that defines [Dog], makes [d] and [e], teaches one trick to
    each and rebinds [e.kind]; it yields the two instances. *)
Definition cell_Dog (n1 n2 t1 t2 : value) : M (value * value) :=
  class_Dog ;;
  d <- Dog n1 ;;
  store_name "d" d ;;
  e <- Dog n2 ;;
  store_name "e" e ;;
  Dog_add_trick d t1 ;;
  Dog_add_trick e t2 ;;
  setattr e "kind" (VStr (str "super-dog")) ;;
  ret (d, e).

(** [print(x.tricks)]: the items of the list that [x.tricks] refers to. *)
Definition show_tricks (x : value) : M (list value) :=
  tricks <- getattr x "tricks" ;;
  list_items tricks.

(** *** Sequence, Dna, Protein *)

Definition class_Sequence : M value := new_class "Sequence" None ∅.

Definition Sequence___init__ (name sequence : value) (self : value) : M unit :=
  setattr self "name" name ;;
  setattr self "sequence" sequence.

Definition class_Dna : M value :=
  base <- load_name "Sequence" ;;
  new_class "Dna" (Some base) ∅.

Definition Dna (name sequence : value) : M value :=
  construct "Dna" (Sequence___init__ name sequence).

Definition Dna_reverse_complement (self : value) : M value :=
  match maketrans (str "ACGTacgt") (str "TGCAtgca") with
  | None => raise (ValueError "maketrans")
  | Some translation_table =>
      sequence <- getattr self "sequence" ;;
      match sequence with
      | VStr s => ret (VStr (rev (translate translation_table s)))
      | _ => raise (AttributeError "translate")
      end
  end.

(** The complement of a base in the words of the specification: A and T
    are exchanged, C and G are exchanged, upper and lower case are kept.
    It is compared below with the table of [Dna_reverse_complement]. *)
Definition base_complement (c : N) : N :=
  if decide (c = 65%N) then 84%N          (* A -> T *)
  else if decide (c = 84%N) then 65%N     (* T -> A *)
  else if decide (c = 67%N) then 71%N     (* C -> G *)
  else if decide (c = 71%N) then 67%N     (* G -> C *)
  else if decide (c = 97%N) then 116%N    (* a -> t *)
  else if decide (c = 116%N) then 97%N    (* t -> a *)
  else if decide (c = 99%N) then 103%N    (* c -> g *)
  else if decide (c = 103%N) then 99%N    (* g -> c *)
  else c.

(** A string over the alphabet ACGTacgt. *)
Definition is_dna (s : pystr) : Prop :=
  Forall (fun c => c ∈ str "ACGTacgt") s.

(** The class [Protein] as redefined with [__eq__]. *)
Definition class_Protein : M value :=
  base <- load_name "Sequence" ;;
  new_class "Protein" (Some base) ∅.

Definition Protein (name sequence : value) : M value :=
  construct "Protein" (Sequence___init__ name sequence).

Definition Protein___eq__ (self other_instance : value) : M value :=
  a <- getattr self "sequence" ;;
  b <- getattr other_instance "sequence" ;;
  ret (VBool (py_eq a b)).

(** The cell [p1 = Protein(n1, s1); p2 = Protein(n2, s2); p1 == p2]. *)
Definition cell_Protein_eq (n1 s1 n2 s2 : value) : M value :=
  p1 <- Protein n1 s1 ;;
  store_name "p1" p1 ;;
  p2 <- Protein n2 s2 ;;
  store_name "p2" p2 ;;
  Protein___eq__ p1 p2.

(** The two instances of the cell above, without the comparison. *)
Definition two_proteins (n1 s1 n2 s2 : value) : M (value * value) :=
  p1 <- Protein n1 s1 ;;
  store_name "p1" p1 ;;
  p2 <- Protein n2 s2 ;;
  store_name "p2" p2 ;;
  ret (p1, p2).

(** A state of the notebook with a [Dna] instance bound to [dna]. *)
Definition example_dna : outcome value * state :=
  (class_Sequence ;;
   class_Dna ;;
   dna <- Dna (VStr (str "gene1")) (VStr (str "ACTGCGACCAAGACATAG")) ;;
   store_name "dna" dna ;;
   ret dna) (mkState ∅ ∅).

Definition example_dna_self : value :=
  match example_dna.1 with
  | Ok dna => dna
  | Raise _ => VNone
  end.

(** *** Reverser, with the double underscore *)

Definition class_Reverser : M value := new_class "Reverser" None ∅.

Definition Reverser___init__ (name : value) (self : value) : M unit :=
  setattr self "public" name ;;
  reversed <- slice_reverse name ;;
  setattr self (mangle "Reverser" "__private") reversed.

Definition Reverser (name : value) : M value :=
  construct "Reverser" (Reverser___init__ name).

Definition Reverser_get_reverse (self : value) : M value :=
  getattr self (mangle "Reverser" "__private").

(** The cell up to the assignment from outside the class,
    [x.__private = v], which is not mangled. *)
Definition cell_Reverser (name v : value) : M value :=
  class_Reverser ;;
  x <- Reverser name ;;
  store_name "x" x ;;
  setattr x "__private" v ;;
  ret x.

End Py.

(** ** The image-analysis notebook *)

Module Img.

(** A two-dimensional array is the list of its rows. *)
Abbreviation arr A := (list (list A)).

Definition shape {A} (a : arr A) : list nat := map length a.

(** The element at row [p.1] and column [p.2]. *)
Definition at_pos {A} (a : arr A) (p : nat * nat) : option A :=
  a !! p.1 ≫= (.!! p.2).

(** All the elements, row after row. *)
Definition ravel {A} (a : arr A) : list A := concat a.

(** An operation of numpy on two arrays, element by element.  The notebook
    only combines arrays of one shape; numpy's broadcasting of unequal
    shapes is not modelled and is an error here. *)
Definition elementwise {A B C} (f : A -> B -> C) (a : arr A) (b : arr B)
  : option (arr C) :=
  if bool_decide (shape a = shape b)
  then Some (zip_with (zip_with f) a b)
  else None.

(** An array against a scalar. *)
Definition scalar_op {A B} (f : A -> B) (a : arr A) : arr B := map (map f) a.

(** [a[mask] = v]: in place in numpy, here the updated array. *)
Definition set_where {A} (a : arr A) (mask : arr bool) (v : A) : option (arr A) :=
  elementwise (fun x (m : bool) => if m then v else x) a mask.

(** [a.max()]; numpy raises on an array without elements. *)
Definition amax (a : arr Z) : option Z :=
  match ravel a with
  | [] => None
  | x :: xs => Some (foldl Z.max x xs)
  end.

(** *** Adaptive background subtraction and thresholding

    The channels are arrays of unsigned integers of [w] bits (8 for the
    example image); their subtraction wraps around. *)
Section Nucleus.

Variable w : Z.

(** [ndi.uniform_filter(input, size)], of the same dtype as its input. *)
Variable uniform_filter : arr Z -> Z -> arr Z.

Definition usub (x y : Z) : Z := (x - y) mod 2 ^ w.

Definition adaptive_background_subtraction (nuc_smooth : arr Z)
  : option (arr Z * arr Z) :=
  let nuc_smooth_bg := uniform_filter nuc_smooth 20 in
  nuc_smooth_bgsub ← elementwise usub nuc_smooth nuc_smooth_bg;
  below ← elementwise Z.ltb nuc_smooth nuc_smooth_bg;
  nuc_smooth_bgsub ← set_where nuc_smooth_bgsub below 0;
  Some (nuc_smooth_bg, nuc_smooth_bgsub).

(** [nuc_mask = nuc_smooth_bgsub > 10] *)
Definition apply_threshold (nuc_smooth_bgsub : arr Z) : arr bool :=
  scalar_op (fun x => 10 <? x) nuc_smooth_bgsub.

End Nucleus.

(** *** Seeds and watershed *)
Section Watershed.

(** [segmentation.watershed(image, markers)] *)
Variable watershed : arr float -> arr Z -> arr Z.

(** [seeds = np.copy(nuc_labeled); seeds[act_bgsub==0] = nuc_labeled.max()+1].
    The seeds are a copy: [nuc_labeled] is as before. *)
Definition prepare_seeds (nuc_labeled : arr Z) (act_bgsub : arr float)
  : option (arr Z) :=
  let seeds := nuc_labeled in
  background ← amax nuc_labeled;
  set_where seeds (scalar_op (fun x => PrimFloat.eqb x 0) act_bgsub) (background + 1).

(** [act_ws = segmentation.watershed(act_sobel, seeds)] followed by
    [act_ws[act_ws==nuc_labeled.max()+1] = 0] *)
Definition watershed_cells (act_sobel : arr float) (nuc_labeled seeds : arr Z)
  : option (arr Z) :=
  let act_ws := watershed act_sobel seeds in
  background ← amax nuc_labeled;
  set_where act_ws (scalar_op (fun x => x =? background + 1) act_ws) 0.

Definition segment_cells (act_sobel act_bgsub : arr float) (nuc_labeled : arr Z)
  : option (arr Z) :=
  seeds ← prepare_seeds nuc_labeled act_bgsub;
  watershed_cells act_sobel nuc_labeled seeds.

End Watershed.

(** *** Region properties *)

Inductive scalar :=
| SBool (b : bool)
| SInt (n : Z)
| SFloat (x : float).

(** The value of a property of a region: a number, a tuple (a centroid, a
    bounding box) or an array (coordinates, an image, moments). *)
Inductive prop_value :=
| PScalar (x : scalar)
| PTuple (items : list scalar)
| PNdarray (a : arr scalar).

(** A record of [measure.regionprops]: iterating over it gives its property
    names, indexing it by a name gives the value. *)
Abbreviation region := (gmap string prop_value).

(** [type(v) in [tuple, np.ndarray]] *)
Definition is_tuple_or_ndarray (v : prop_value) : bool :=
  match v with
  | PScalar _ => false
  | PTuple _ | PNdarray _ => true
  end.

(** [np.array] of a list of numbers: the numbers in order.  (The change to
    a common dtype keeps their numeric value and is not modelled; a list
    that mixes numbers with tuples or arrays is not converted.) *)
Definition np_array (values : list prop_value) : option (list scalar) :=
  mapM (fun v => match v with PScalar x => Some x | _ => None end) values.

(** The column of [prop_name]: [region[prop_name]] for each region in order,
    then the conversion to an array. *)
Definition column (props : list region) (prop_name : string)
  : option (list scalar) :=
  values ← mapM (fun r : region => r !! prop_name) props;
  np_array values.

Definition props2dict (props : list region)
  : option (gmap string (list scalar)) :=
  first ← props !! 0%nat;
  let propdict : gmap string (list scalar) :=
    (fun _ => []) <$> filter (fun kv => is_tuple_or_ndarray kv.2 = false) first in
  foldl (fun acc prop_name =>
           propdict ← acc;
           values ← column props prop_name;
           Some (<[prop_name := values]> propdict))
        (Some propdict) (map fst (map_to_list propdict)).

(** Records of one kind, as [measure.regionprops] makes them: a property
    that is a number in the record [first] is present, and a number, in
    every record. *)
Definition same_kind (first : region) (props : list region) : Prop :=
  Forall (fun r : region =>
            forall k v, first !! k = Some v -> is_tuple_or_ndarray v = false ->
                        exists x, r !! k = Some (PScalar x))
         props.

(** *** The ground truth of the classifier *)

(** The integer [n] as a float (exact for the small constants used here). *)
Definition float_of_int (n : Z) : float :=
  if 0 <=? n then PrimFloat.of_uint63 (Uint63.of_Z n)
  else PrimFloat.opp (PrimFloat.of_uint63 (Uint63.of_Z (- n))).

(** [x > n] for an element [x] of an array and an integer constant [n]. *)
Definition scalar_gt (x : scalar) (n : Z) : bool :=
  match x with
  | SBool b => n <? (if b then 1 else 0)
  | SInt m => n <? m
  | SFloat y => PrimFloat.ltb (float_of_int n) y
  end.

(** [ground_truth = propdict_pH3['mean_intensity'] > 20] *)
Definition ground_truth (propdict_pH3 : gmap string (list scalar))
  : option (list bool) :=
  mean_intensity ← propdict_pH3 !! "mean_intensity";
  Some (map (fun x => scalar_gt x 20) mean_intensity).

(** The arguments of a call [svc.fit(X, y)]. *)
Record fit_call (dataframe : Type) := mkFit {
  fit_X : dataframe;
  fit_y : list bool
}.
Arguments mkFit {dataframe} fit_X fit_y.
Arguments fit_X {dataframe} f.
Arguments fit_y {dataframe} f.

(** From the records of the pH3 channel to the training call:
    [propdict_pH3 = props2dict(nuc_props_pH3)], the ground truth, and
    [svc.fit(propdf_stand, ground_truth)]. *)
Definition train_classifier {dataframe} (propdf_stand : dataframe)
    (nuc_props_pH3 : list region) : option (fit_call dataframe) :=
  propdict_pH3 ← props2dict nuc_props_pH3;
  ground_truth ← ground_truth propdict_pH3;
  Some (mkFit propdf_stand ground_truth).

(** Three nuclei measured on the pH3 channel, the second one in mitosis. *)
Definition example_region (label : Z) (mean_intensity : float) (row col : float)
  : region :=
  <["label" := PScalar (SInt label)]>
    (<["mean_intensity" := PScalar (SFloat mean_intensity)]>
       (<["centroid" := PTuple [SFloat row; SFloat col]]>
          (<["coords" := PNdarray [[SInt 0; SInt 1]]]> ∅))).

Definition example_props : list region :=
  [example_region 1 12.5 3 4; example_region 2 87.25 10 2;
   example_region 3 20 7 7].

End Img.

(** ** What the notebooks call

    Each code cell of a notebook is listed under its index among the cells
    of the notebook, with the calls it makes out of the notebook's own
    code, in order of first appearance: calls into libraries and builtins
    under their qualified names, imports, notebook magics, and the calls
    of functions and classes that the notebook defines itself (whose own
    calls are listed with the cell that defines them). *)

Module Nb.
Local Open Scope nat_scope.

Inductive call :=
| Lib (callee : string)
| LibArg (callee : string) (arg : string)   (* with its first argument *)
| Import (module : string)
| Local (name : string)
| Magic (line : string).

(** What a call does outside the memory of the running program. *)
Inductive effect :=
| Compute                                   (* nothing *)
| Display                                   (* text or a figure in the output *)
| LoadCode (module : string)                (* an installed module *)
| LocalCode (name : string)                 (* code of the notebook *)
| ReadFile (callee path : string)
| WriteFile (callee path : string)
| BundledData (loader : string)             (* a dataset shipped with a library *)
| UserInput (widget target : string).       (* the user at the notebook *)

Inductive kind := KCompute | KDisplay | KRead | KWrite | KBundled | KInput.

(** The routines of the libraries and of the builtins that read, write,
    ask or show; the other routines of a library go by [library_default]. *)
Definition library_io : list (string * kind) :=
  [("builtins.print", KDisplay); ("builtins.input", KInput);
   ("builtins.open", KRead);
   ("skimage.io.imread", KRead); ("skimage.io.imsave", KWrite);
   ("skimage.io.imshow", KDisplay);
   ("matplotlib.pyplot.imread", KRead); ("matplotlib.pyplot.imsave", KWrite);
   ("matplotlib.pyplot.savefig", KWrite);
   ("matplotlib.figure.Figure.savefig", KWrite);
   ("numpy.load", KRead); ("numpy.loadtxt", KRead);
   ("numpy.genfromtxt", KRead); ("numpy.fromfile", KRead);
   ("numpy.save", KWrite); ("numpy.savetxt", KWrite);
   ("numpy.ndarray.tofile", KWrite);
   ("pandas.read_csv", KRead); ("pandas.read_table", KRead);
   ("pandas.read_excel", KRead); ("pandas.read_pickle", KRead);
   ("pandas.DataFrame.to_csv", KWrite); ("pandas.DataFrame.to_excel", KWrite);
   ("pandas.DataFrame.to_pickle", KWrite);
   ("pandas.DataFrame.info", KDisplay); ("pandas.DataFrame.hist", KDisplay);
   ("pandas.DataFrame.boxplot", KDisplay);
   ("pandas.plotting.scatter_matrix", KDisplay);
   ("seaborn.pairplot", KDisplay); ("seaborn.clustermap", KDisplay);
   ("sklearn.datasets.load_breast_cancer", KBundled);
   ("sklearn.datasets.load_iris", KBundled);
   ("ipywidgets.interactive", KInput); ("ipywidgets.interact", KInput)].

Definition library_default : list (string * kind) :=
  [("matplotlib.", KDisplay);
   ("builtins.", KCompute); ("str.", KCompute); ("int.", KCompute);
   ("list.", KCompute); ("set.", KCompute); ("dict.", KCompute);
   ("numpy.", KCompute); ("scipy.ndimage.", KCompute);
   ("pandas.", KCompute); ("seaborn.", KCompute);
   ("skimage.filters.", KCompute); ("skimage.segmentation.", KCompute);
   ("skimage.measure.", KCompute);
   ("sklearn.model_selection.", KCompute); ("sklearn.preprocessing.", KCompute);
   ("sklearn.svm.", KCompute); ("sklearn.metrics.", KCompute);
   ("sklearn.pipeline.", KCompute); ("sklearn.cluster.", KCompute);
   ("sklearn.linear_model.", KCompute)].

Definition kind_of (callee : string) : option kind :=
  match list_find (fun entry => String.eqb entry.1 callee) library_io with
  | Some (_, (_, k)) => Some k
  | None =>
      match list_find (fun entry => String.prefix entry.1 callee) library_default with
      | Some (_, (_, k)) => Some k
      | None => None
      end
  end.

Definition effect_of_kind (k : kind) (callee arg : string) : effect :=
  match k with
  | KCompute => Compute
  | KDisplay => Display
  | KRead => ReadFile callee arg
  | KWrite => WriteFile callee arg
  | KBundled => BundledData callee
  | KInput => UserInput callee arg
  end.

(** The effect of a call; [None] for a routine that is not classified. *)
Definition effect_of (c : call) : option effect :=
  match c with
  | Lib callee => k ← kind_of callee; Some (effect_of_kind k callee "")
  | LibArg callee arg => k ← kind_of callee; Some (effect_of_kind k callee arg)
  | Import module => Some (LoadCode module)
  | Local name => Some (LocalCode name)
  | Magic _ => Some Display
  end.

(** Data that comes from outside the program, or goes out of it other
    than to the output area of the notebook. *)
Definition is_external (e : effect) : bool :=
  match e with
  | ReadFile _ _ | WriteFile _ _ | BundledData _ | UserInput _ _ => true
  | Compute | Display | LoadCode _ | LocalCode _ => false
  end.

(** The notebook on object-oriented programming. *)
Definition oop_notebook : list (nat * list call) :=
  [(2, [Lib "builtins.print"; Lib "builtins.dir"]);
   (4, [Lib "builtins.print"; Local "f"]);
   (6, [Lib "builtins.range"; Lib "builtins.print"]);
   (10, [Import "math"; Import "numpy"; Lib "builtins.print"]);
   (17, [Local "MyClass"; Lib "builtins.print"; Local "f"]);
   (18, [Lib "builtins.print"]);
   (20, [Lib "builtins.print"]);
   (21, [Local "Complex"]);
   (22, [Local "Complex"]);
   (24, [Local "generic_method"]);
   (25, [Local "generic_method"]);
   (27, [Lib "builtins.print"]);
   (31, [Local "Dog"; Lib "builtins.print"]);
   (33, [Lib "list.append"; Local "Dog"; Local "add_trick";
        Lib "builtins.print"]);
   (35, [Lib "str.maketrans"; Lib "str.translate"; Lib "builtins.len"]);
   (36, [Local "Dna"; Local "reverse_complement"]);
   (37, [Local "Protein"; Local "reverse_complement"]);
   (38, [Local "Protein"; Local "get_exon_length"]);
   (40, [Lib "builtins.bool"]);
   (41, [Local "BetterInt"; Local "is_odd"]);
   (43, [Local "Reverser"; Lib "builtins.print"; Local "get_reverse"]);
   (45, [Local "Reverser"; Lib "builtins.print"; Local "get_reverse"]);
   (47, [Lib "builtins.print"]);
   (51, [Lib "int.__add__"]);
   (53, [Local "Protein"; Lib "builtins.dir"]);
   (55, [Local "Protein"]);
   (56, [Lib "builtins.len"]);
   (57, [Local "Protein"]);
   (61, [Local "sum_two_things"]);
   (62, [Local "sum_two_things"])].

(** The notebook on machine learning with scikit-learn. *)
Definition machine_learning_notebook : list (nat * list call) :=
  [(4, [Magic "%matplotlib inline"; Import "matplotlib.pyplot";
        Import "seaborn"; Lib "seaborn.set_style"]);
   (5, [Import "numpy"; Import "pandas"; Import "sklearn.datasets"]);
   (6, [Lib "sklearn.datasets.load_breast_cancer"]);
   (7, [Lib "builtins.print"]);
   (8, [Lib "dict.keys"]);
   (12, [Lib "pandas.DataFrame"]);
   (13, [Lib "pandas.Series"]);
   (14, [Lib "pandas.DataFrame.info"]);
   (16, [Lib "pandas.DataFrame.hist"]);
   (18, [Lib "seaborn.pairplot"]);
   (19, [Import "pandas.plotting.scatter_matrix";
        Lib "pandas.plotting.scatter_matrix"]);
   (21, [Lib "seaborn.clustermap"; Lib "pandas.DataFrame.corr";
        Lib "matplotlib.axes.Axes.set_yticklabels";
        Lib "matplotlib.axes.Axes.get_yticklabels"]);
   (23, [Lib "pandas.DataFrame.corr"; Lib "pandas.DataFrame.stack";
        Lib "pandas.Series.head"]);
   (24, [Lib "pandas.DataFrame.corr"; Lib "numpy.fill_diagonal";
        Lib "pandas.DataFrame.stack"]);
   (25, [Lib "pandas.Series.head"]);
   (26, [Lib "builtins.set"; Lib "set.add"]);
   (29, [Lib "seaborn.pairplot"; Lib "builtins.sorted";
        Lib "builtins.set"]);
   (30, [Lib "builtins.sorted"; Lib "builtins.set"]);
   (32, [Import "sklearn.model_selection"]);
   (33, [Lib "sklearn.model_selection.train_test_split";
        Lib "pandas.DataFrame.head"]);
   (34, [Lib "pandas.Series.head"]);
   (38, [Lib "sklearn.model_selection.StratifiedShuffleSplit"]);
   (41, [Lib "sklearn.model_selection.StratifiedShuffleSplit.split"]);
   (42, [Lib "builtins.next";
        Lib "sklearn.model_selection.StratifiedShuffleSplit.split"]);
   (43, [Lib "pandas.DataFrame.head"]);
   (48, [Import "sklearn.preprocessing"]);
   (49, [Lib "sklearn.preprocessing.StandardScaler";
        Lib "sklearn.preprocessing.StandardScaler.fit"]);
   (51, [Lib "sklearn.preprocessing.StandardScaler.fit_transform"]);
   (52, [Lib "pandas.DataFrame";
        Lib "sklearn.preprocessing.StandardScaler.fit_transform"]);
   (53, [Lib "pandas.DataFrame.hist"]);
   (55, [Import "sklearn.svm"]);
   (56, [Lib "sklearn.svm.LinearSVC"]);
   (57, [Lib "sklearn.svm.LinearSVC"; Lib "sklearn.svm.LinearSVC.fit"]);
   (59, [Lib "sklearn.svm.LinearSVC.predict"]);
   (60, [Lib "pandas.Series"; Lib "sklearn.svm.LinearSVC.predict"]);
   (62, [Lib "pandas.DataFrame.join"; Lib "pandas.Series.to_frame";
        Lib "pandas.DataFrame.head"]);
   (65, [Import "sklearn.metrics"]);
   (66, [Lib "matplotlib.pyplot.figure";
        Lib "matplotlib.pyplot.subplot";
        Lib "sklearn.metrics.roc_curve"; Lib "matplotlib.pyplot.plot";
        Lib "matplotlib.pyplot.xlabel"; Lib "matplotlib.pyplot.ylabel";
        Lib "matplotlib.pyplot.xlim"; Lib "matplotlib.pyplot.ylim";
        Lib "sklearn.metrics.precision_recall_curve";
        Lib "matplotlib.pyplot.tight_layout";
        Lib "sklearn.metrics.roc_auc_score"]);
   (68, [Lib "sklearn.model_selection.cross_val_score";
        Lib "sklearn.metrics.make_scorer"]);
   (70, [Lib "numpy.linspace"; Lib "sklearn.svm.LinearSVC";
        Lib "sklearn.model_selection.GridSearchCV";
        Lib "sklearn.metrics.make_scorer";
        Lib "sklearn.model_selection.GridSearchCV.fit"]);
   (71, [Lib "dict.keys"]);
   (72, [Lib "matplotlib.pyplot.figure"; Lib "builtins.zip";
        Lib "matplotlib.pyplot.plot"; Lib "matplotlib.pyplot.xlabel";
        Lib "matplotlib.pyplot.ylabel"]);
   (74, [Import "sklearn.pipeline"]);
   (75, [Lib "sklearn.pipeline.Pipeline";
        Lib "sklearn.preprocessing.StandardScaler";
        Lib "sklearn.svm.LinearSVC"]);
   (76, [Lib "sklearn.pipeline.Pipeline.fit";
        Lib "sklearn.pipeline.Pipeline.predict"]);
   (77, [Lib "pandas.Series"; Lib "sklearn.pipeline.Pipeline.predict";
        Lib "pandas.DataFrame.join"; Lib "pandas.Series.to_frame";
        Lib "pandas.DataFrame.head"]);
   (78, [Lib "matplotlib.pyplot.figure";
        Lib "matplotlib.pyplot.subplot";
        Lib "sklearn.metrics.roc_curve"; Lib "matplotlib.pyplot.plot";
        Lib "matplotlib.pyplot.xlabel"; Lib "matplotlib.pyplot.ylabel";
        Lib "matplotlib.pyplot.xlim"; Lib "matplotlib.pyplot.ylim";
        Lib "sklearn.metrics.precision_recall_curve";
        Lib "matplotlib.pyplot.tight_layout";
        Lib "sklearn.metrics.roc_auc_score"]);
   (81, [Lib "sklearn.datasets.load_iris"]);
   (85, [Lib "sklearn.preprocessing.StandardScaler";
        Lib "sklearn.preprocessing.StandardScaler.fit_transform"]);
   (86, [Import "sklearn.cluster.KMeans"]);
   (87, [Lib "sklearn.cluster.KMeans"; Lib "sklearn.cluster.KMeans.fit"]);
   (89, [Lib "sklearn.cluster.KMeans.predict"]);
   (91, [Lib "matplotlib.pyplot.figure";
        Lib "matplotlib.pyplot.subplot"; Lib "builtins.zip";
        Lib "builtins.set"; Lib "matplotlib.pyplot.plot";
        Lib "str.format"; Lib "matplotlib.pyplot.xlabel";
        Lib "matplotlib.pyplot.ylabel"; Lib "matplotlib.pyplot.legend"]);
   (93, [Lib "sklearn.metrics.homogeneity_score"]);
   (95, [Import "sklearn.linear_model.RidgeClassifier"]);
   (96, [Lib "sklearn.linear_model.RidgeClassifier";
        Lib "sklearn.linear_model.RidgeClassifier.fit"]);
   (97, [Lib "sklearn.linear_model.RidgeClassifier.predict"]);
   (98, [Lib "sklearn.metrics.f1_score"]);
   (100, [Lib "matplotlib.pyplot.figure";
        Lib "matplotlib.pyplot.subplot"; Lib "matplotlib.pyplot.plot";
        Lib "matplotlib.pyplot.xlabel"; Lib "matplotlib.pyplot.ylabel";
        Lib "matplotlib.pyplot.legend"])].

(** The notebook on image analysis. *)
Definition image_analysis_notebook : list (nat * list call) :=
  [(4, [Import "__future__.division";
        Import "__future__.print_function"; Import "numpy";
        Import "pandas"; Import "matplotlib.pyplot";
        Import "scipy.ndimage"; Import "skimage.filters";
        Import "skimage.graph"; Import "skimage.io";
        Import "skimage.measure"; Import "skimage.segmentation";
        Import "sklearn.metrics"; Import "sklearn.preprocessing";
        Import "sklearn.svm"]);
   (6, [LibArg "skimage.io.imread" "../data/HT29.tif";
        Lib "builtins.print"; Lib "builtins.type";
        Lib "numpy.ndarray.min"; Lib "numpy.ndarray.max";
        Lib "numpy.ndarray.mean"]);
   (8, [Lib "matplotlib.pyplot.imshow"; Lib "matplotlib.pyplot.show"]);
   (9, [Lib "matplotlib.pyplot.subplots"; Lib "builtins.zip";
        Lib "matplotlib.axes.Axes.imshow";
        Lib "matplotlib.axes.Axes.set_title";
        Lib "matplotlib.axes.Axes.axis"; Lib "matplotlib.pyplot.show"]);
   (10, [Lib "matplotlib.pyplot.figure"; Lib "matplotlib.pyplot.imshow";
        Lib "numpy.zeros_like"; Lib "numpy.zeros";
        Lib "builtins.enumerate"; Lib "numpy.ndarray.astype";
        Lib "numpy.ndarray.min"; Lib "numpy.ndarray.max";
        Lib "matplotlib.pyplot.axis"; Lib "matplotlib.pyplot.show"]);
   (14, [Lib "scipy.ndimage.gaussian_filter";
        Lib "matplotlib.pyplot.subplots";
        Lib "matplotlib.axes.Axes.imshow";
        Lib "matplotlib.axes.Axes.set_title";
        Lib "matplotlib.axes.Axes.axis"; Lib "matplotlib.pyplot.show"]);
   (17, [Lib "scipy.ndimage.uniform_filter";
        Lib "matplotlib.pyplot.subplots";
        Lib "matplotlib.axes.Axes.imshow";
        Lib "matplotlib.axes.Axes.set_title";
        Lib "matplotlib.axes.Axes.axis"; Lib "matplotlib.pyplot.show"]);
   (18, [Lib "matplotlib.pyplot.figure"; Lib "matplotlib.pyplot.imshow";
        Lib "numpy.ma.array"; Lib "matplotlib.pyplot.axis";
        Lib "matplotlib.pyplot.show"; Import "ipywidgets.interactive";
        LibArg "ipywidgets.interactive" "threshold_plot"]);
   (21, [Lib "scipy.ndimage.label"; Lib "matplotlib.pyplot.figure";
        Lib "matplotlib.pyplot.imshow"; Lib "numpy.ma.array";
        Lib "matplotlib.pyplot.axis"; Lib "matplotlib.pyplot.show"]);
   (23, [Lib "numpy.percentile"; Lib "matplotlib.pyplot.figure";
        Lib "matplotlib.pyplot.imshow"; Lib "numpy.ma.array";
        Lib "matplotlib.pyplot.axis"; Lib "matplotlib.pyplot.show"]);
   (24, [Lib "numpy.copy"; Lib "numpy.ndarray.max"]);
   (25, [Lib "skimage.filters.sobel"; Lib "matplotlib.pyplot.figure";
        Lib "matplotlib.pyplot.imshow"; Lib "matplotlib.pyplot.axis";
        Lib "matplotlib.pyplot.show"]);
   (26, [Lib "skimage.segmentation.watershed"; Lib "numpy.ndarray.max";
        Lib "matplotlib.pyplot.figure"; Lib "matplotlib.pyplot.imshow";
        Lib "numpy.ma.array"; Lib "matplotlib.pyplot.axis";
        Lib "matplotlib.pyplot.show"]);
   (27, [Lib "matplotlib.pyplot.figure"; Lib "matplotlib.pyplot.imshow";
        Lib "numpy.ma.array"; Lib "skimage.filters.sobel";
        Lib "matplotlib.pyplot.axis"; Lib "matplotlib.pyplot.show"]);
   (30, [Lib "skimage.measure.regionprops"]);
   (31, [Lib "builtins.type"; Lib "list.append"; Lib "numpy.array";
        Local "props2dict"; Lib "pandas.DataFrame";
        Lib "pandas.DataFrame.drop"]);
   (33, [Lib "pandas.DataFrame.head"]);
   (34, [Lib "pandas.DataFrame.describe"]);
   (35, [Lib "matplotlib.pyplot.figure"; Lib "pandas.DataFrame.boxplot";
        Lib "matplotlib.figure.Figure.autofmt_xdate";
        Lib "matplotlib.pyplot.show"]);
   (36, [Lib "numpy.zeros"; Lib "builtins.enumerate";
        Lib "matplotlib.pyplot.figure"; Lib "matplotlib.pyplot.imshow";
        Lib "numpy.ma.array"; Lib "matplotlib.pyplot.colorbar";
        Lib "matplotlib.pyplot.axis"; Lib "matplotlib.pyplot.show"]);
   (37, [Lib "matplotlib.pyplot.figure";
        Lib "matplotlib.pyplot.scatter"; Lib "matplotlib.pyplot.plot";
        Lib "numpy.sort"; Lib "matplotlib.pyplot.legend";
        Lib "matplotlib.pyplot.xlabel"; Lib "matplotlib.pyplot.ylabel";
        Lib "matplotlib.pyplot.show"]);
   (39, [Lib "pandas.DataFrame.mean"; Lib "pandas.DataFrame.std";
        Lib "matplotlib.pyplot.figure"; Lib "pandas.DataFrame.boxplot";
        Lib "matplotlib.figure.Figure.autofmt_xdate";
        Lib "matplotlib.pyplot.show"]);
   (40, [Lib "matplotlib.pyplot.hist"; Lib "matplotlib.pyplot.ylim";
        Lib "matplotlib.pyplot.show"]);
   (41, [Lib "sklearn.svm.SVC"; Lib "sklearn.svm.SVC.fit"]);
   (42, [Lib "sklearn.svm.SVC.predict"]);
   (43, [Lib "sklearn.metrics.confusion_matrix";
        Lib "matplotlib.pyplot.imshow"; Lib "numpy.ndenumerate";
        Lib "matplotlib.pyplot.text"; Lib "matplotlib.pyplot.xticks";
        Lib "matplotlib.pyplot.yticks"; Lib "matplotlib.pyplot.xlabel";
        Lib "matplotlib.pyplot.ylabel"; Lib "matplotlib.pyplot.show"])].

Definition calls (notebook : list (nat * list call)) : list call :=
  concat (map snd notebook).

(** The external effects of a notebook, in the order of its cells; [None]
    if one of its calls is not classified. *)
Definition external_effects (notebook : list (nat * list call))
  : option (list effect) :=
  effects ← mapM effect_of (calls notebook);
  Some (List.filter is_external effects).

(** The inputs that the specification lists. *)
Definition listed_inputs : list effect :=
  [ReadFile "skimage.io.imread" "../data/HT29.tif";
   BundledData "sklearn.datasets.load_breast_cancer";
   BundledData "sklearn.datasets.load_iris"].

End Nb.

(** ** More of the notebook on object-oriented programming *)

Module Oop.
Import Py.

(** *** MyClass: a class variable, a docstring, a list made by [__init__] *)

Definition class_MyClass : M value :=
  new_class "MyClass" None
    (<["i" := VInt 12345]>
       (<["__doc__" := VStr (str "A simple example class")]> ∅)).

Definition MyClass___init__ (self : value) : M unit :=
  data <- alloc (OList []) ;;
  setattr self "data" data.

Definition MyClass : M value := construct "MyClass" MyClass___init__.

Definition MyClass_f (self : value) : M value :=
  ret (VStr (str "hello world")).

(** The cells [x = MyClass()] and [print(x.i); x.i = 2; print(x.i)], with
    the two values printed. *)
Definition cell_MyClass_i : M (value * value) :=
  x <- MyClass ;;
  store_name "x" x ;;
  x <- load_name "x" ;;
  before <- getattr x "i" ;;
  setattr x "i" (VInt 2) ;;
  after <- getattr x "i" ;;
  ret (before, after).

(** *** BetterInt

    An instance of [BetterInt] is an integer; [self % 2] takes the sign of
    the divisor, and [bool] of an integer is whether it is not 0. *)
Definition BetterInt_is_odd (self : Z) : bool := negb (self mod 2 =? 0).

(** *** Reverser, with the single underscore *)

Definition Reverser___init__ (name : value) (self : value) : M unit :=
  setattr self "public" name ;;
  reversed <- slice_reverse name ;;
  setattr self (mangle "Reverser" "_private") reversed.

Definition Reverser (name : value) : M value :=
  construct "Reverser" (Reverser___init__ name).

Definition Reverser_get_reverse (self : value) : M value :=
  getattr self (mangle "Reverser" "_private").

(** The cell up to the assignment [x._private = v]. *)
Definition cell_Reverser (name v : value) : M value :=
  class_Reverser ;;
  x <- Reverser name ;;
  store_name "x" x ;;
  setattr x "_private" v ;;
  ret x.

(** *** Protein before [__eq__] is overloaded

    The class statement and the constructor are those of [Py]; [p1 == p2]
    is the comparison that every object has, by identity. *)
Definition cell_Protein_eq (n1 s1 n2 s2 : value) : M value :=
  p1 <- Protein n1 s1 ;;
  store_name "p1" p1 ;;
  p2 <- Protein n2 s2 ;;
  store_name "p2" p2 ;;
  ret (VBool (py_eq p1 p2)).

End Oop.

(** ** The choice of features in the machine-learning notebook *)

Module Select.

(** [high_corr] is the index of the pairs of features whose correlation
    is above 0.7: a list of pairs of feature names.
    [high_corr.loc[feat1].index]: the second names of the pairs whose
    first name is [feat1]. *)
Definition correlated_with (high_corr : list (string * string))
    (feat1 : string) : list string :=
  (filter (fun entry => entry.1 = feat1) high_corr).*2.

(** The body of the loop for one [feat1], on the sets [(saved, discarded)]. *)
Definition visit (high_corr : list (string * string))
    (sets : gset string * gset string) (feat1 : string)
  : gset string * gset string :=
  if decide (feat1 ∈ sets.2) then sets
  else ({[feat1]} ∪ sets.1,
        foldl (fun discarded feat2 => {[feat2]} ∪ discarded) sets.2
              (correlated_with high_corr feat1)).

(** The loop [for feat1 in {x[0] for x in high_corr.index}].  The set is
    iterated in an order that Python does not fix: [order] is that order. *)
Definition select_features (order : list string)
    (high_corr : list (string * string)) : gset string * gset string :=
  foldl (visit high_corr) (∅, ∅) order.

(** The order of [sorted] on strings. *)
Definition str_le (a b : string) : Prop := String.leb a b = true.

#[global] Instance str_le_dec : RelDecision str_le :=
  fun a b => decide (String.leb a b = true).

(** [sorted(set(df.columns) - discarded)] *)
Definition kept_columns (columns : list string) (discarded : gset string)
  : list string :=
  merge_sort str_le (elements (list_to_set columns ∖ discarded : gset string)).

End Select.

(** ** More of the notebook on image analysis *)

Module Paint.
Import Img.

(** The local [nuc_mask] of [threshold_plot(threshold)]. *)
Definition threshold_mask (threshold : Z) (nuc_smooth_bgsub : arr Z) : arr bool :=
  scalar_op (fun x => threshold <? x) nuc_smooth_bgsub.

(** A number stored into an array of floats. *)
Definition to_float (x : scalar) : float :=
  match x with
  | SBool b => if b then 1%float else 0%float
  | SInt n => float_of_int n
  | SFloat y => y
  end.

(** [pixel == label] for a pixel of the labelled image. *)
Definition label_eq (pixel : Z) (label : scalar) : bool :=
  match label with
  | SBool b => pixel =? (if b then 1 else 0)
  | SInt n => pixel =? n
  | SFloat y => Py.float_eq_Z y pixel
  end.

(** The loop [for row,label in enumerate(propdf.label)], from [row] on:
    [nuc_propcolored[nuc_labeled==label] = propdict_act[color_prop][row]]. *)
Fixpoint paint_rows (nuc_labeled : arr Z) (propdict_act : gmap string (list scalar))
    (color_prop : string) (row : nat) (labels : list scalar)
    (nuc_propcolored : arr float) : option (arr float) :=
  match labels with
  | [] => Some nuc_propcolored
  | label :: rest =>
      values ← propdict_act !! color_prop;
      v ← values !! row;
      painted ← set_where nuc_propcolored
                  (scalar_op (fun x => label_eq x label) nuc_labeled)
                  (to_float v);
      paint_rows nuc_labeled propdict_act color_prop (S row) rest painted
  end.

(** The cell: [color_prop = 'area'], [nuc_propcolored = np.zeros(nuc.shape)],
    then the loop over [propdf.label]. *)
Definition backmap (nuc nuc_labeled : arr Z)
    (propdf propdict_act : gmap string (list scalar)) : option (arr float) :=
  let color_prop := "area" in
  let nuc_propcolored := scalar_op (fun _ => 0%float) nuc in
  labels ← propdf !! "label";
  paint_rows nuc_labeled propdict_act color_prop 0 labels nuc_propcolored.

End Paint.

(** * Properties of the object-oriented programming notebook *)

Section PyFacts.
Import Py.

(** ** Reasoning about the heap *)

Lemma fresh_is_new (h : gmap loc object) : h !! fresh (dom h) = None.
Proof. apply not_elem_of_dom, is_fresh. Qed.

Lemma fresh_ne (h : gmap loc object) (l : loc) :
  is_Some (h !! l) -> fresh (dom h) ≠ l.
Proof.
  intros [o Ho] E. rewrite <- E, fresh_is_new in Ho. discriminate.
Qed.

Lemma fresh_ne_sym (h : gmap loc object) (l : loc) :
  is_Some (h !! l) -> l ≠ fresh (dom h).
Proof. intros H E. by apply (fresh_ne h l). Qed.

End PyFacts.

(** Names the next fresh location and records that it differs from the
    locations allocated before it. *)
Ltac name_fresh :=
  match goal with
  | |- context [fresh (dom ?h)] =>
      let l := fresh "l" in
      let H := fresh "Hl" in
      pose proof (fresh_is_new h) as H;
      set (l := fresh (dom h)) in *;
      repeat rewrite lookup_insert_None in H;
      destruct_and?
  end.

Ltac loc_neq :=
  first [ assumption | apply not_eq_sym; assumption | discriminate ].

(** One step of a straight-line program of the notebook on a symbolic state. *)
Ltac py_step :=
  first
    [ progress cbn [Py.heap Py.globals Py.mro_lookup fst snd]
    | name_fresh
    | rewrite lookup_insert_eq
    | rewrite lookup_insert_ne by loc_neq
    | rewrite lookup_empty
    | progress unfold Py.bind, Py.ret, Py.raise, Py.alloc, Py.load_name,
        Py.store_name, Py.getattr, Py.setattr, Py.list_append, Py.list_items,
        Py.new_class, Py.instantiate, Py.construct, Py.fresh_loc,
        Py.type_mro, Py.slice_reverse ].

Ltac py_run := repeat py_step.

(** Replaces the run [m s] in the goal by its outcome and final state,
    after unfolding the program with [t]. *)
Tactic Notation "py_eval" constr(m) constr(s) "by" tactic3(t) :=
  let o := fresh "o" in
  let s' := fresh "s'" in
  let E := fresh "E" in
  destruct (m s) as [o s'] eqn:E;
  revert E; t; py_run; intros [= <- <-].

(** Solves a conjunction of runs from left to right. *)
Ltac py_runs :=
  repeat lazymatch goal with
         | |- _ /\ _ => split; [ solve [ py_run; reflexivity ] | ]
         end;
  py_run; try reflexivity.

Section ComplexFacts.
Import Py.

(** C3: the cell [x = Complex()] ends in the TypeError of [__init__], which
    misses both [realpart] and [imagpart]; nothing catches it (the cell is
    the whole program run, and its outcome is the exception), and [x] is not
    bound by it.  With both arguments the construction succeeds and the
    cell's [x.r, x.i] are the very values given as [realpart] and
    [imagpart]; for the notebook's [Complex(1.1, -2.3)] they compare equal
    under [==] to 1.1 and -2.3. *)
Theorem Complex_requires_both_arguments (s : state) (realpart imagpart : value) :
  (exists s',
      (class_Complex ;; cell_Complex_noargs) s
        = (Raise (TypeError "__init__" ["realpart"; "imagpart"]), s')
      /\ globals s' !! "x" = globals s !! "x")
  /\ (exists s',
        (class_Complex ;; cell_Complex_args realpart imagpart) s
          = (Ok (realpart, imagpart), s'))
  /\ (exists r i s',
        (class_Complex ;; cell_Complex_args (VFloat 1.1) (VFloat (-2.3))) s
          = (Ok (r, i), s')
        /\ py_eq r (VFloat 1.1) = true /\ py_eq i (VFloat (-2.3)) = true).
Proof.
  assert (Hargs : forall a b, exists s',
             (class_Complex ;; cell_Complex_args a b) s = (Ok (a, b), s')).
  { intros a b.
    py_eval (class_Complex ;; cell_Complex_args a b) s
      by (unfold class_Complex, cell_Complex_args, Complex, Complex___init__).
    eauto. }
  split; [|split].
  - py_eval (class_Complex ;; cell_Complex_noargs) s
      by (unfold class_Complex, cell_Complex_noargs, Complex, Complex___init__).
    eexists. split; [reflexivity|]. py_run. reflexivity.
  - apply Hargs.
  - destruct (Hargs (VFloat 1.1) (VFloat (-2.3))) as [s' Hs'].
    exists (VFloat 1.1), (VFloat (-2.3)), s'. split; [exact Hs'|].
    split; vm_compute; reflexivity.
Qed.

End ComplexFacts.

Section ReverserFacts.
Import Py.

(** C1: for every string [name], after [x = Reverser(name)] the assignment
    [x.__private = v] made outside the class creates the attribute
    [__private] (absent before) and leaves [x._Reverser__private] at
    [name[::-1]], so that [x.get_reverse()] returns [name[::-1]] before and
    after it: inside the class, [__private] is [_Reverser__private]. *)
Theorem Reverser_private_is_mangled (s : state) (name : pystr) (v : value) :
  mangle "Reverser" "__private" = "_Reverser__private"
  /\ exists x s1 s2,
       (class_Reverser ;; x <- Reverser (VStr name) ;; store_name "x" x ;; ret x) s
         = (Ok x, s1)
       /\ getattr x "__private" s1 = (Raise (AttributeError "__private"), s1)
       /\ getattr x "_Reverser__private" s1 = (Ok (VStr (rev name)), s1)
       /\ Reverser_get_reverse x s1 = (Ok (VStr (rev name)), s1)
       /\ setattr x "__private" v s1 = (Ok tt, s2)
       /\ cell_Reverser (VStr name) v s = (Ok x, s2)
       /\ getattr x "__private" s2 = (Ok v, s2)
       /\ getattr x "_Reverser__private" s2 = (Ok (VStr (rev name)), s2)
       /\ Reverser_get_reverse x s2 = (Ok (VStr (rev name)), s2).
Proof.
  split; [reflexivity|].
  py_eval (class_Reverser ;; x <- Reverser (VStr name) ;; store_name "x" x ;; ret x) s
    by (unfold class_Reverser, Reverser, Reverser___init__;
        change (mangle "Reverser" "__private") with "_Reverser__private").
  py_eval (cell_Reverser (VStr name) v) s
    by (unfold cell_Reverser, class_Reverser, Reverser, Reverser___init__;
        change (mangle "Reverser" "__private") with "_Reverser__private").
  do 3 eexists. unfold Reverser_get_reverse.
  change (mangle "Reverser" "__private") with "_Reverser__private".
  split; [reflexivity|].
  py_runs.
Qed.

(** The notebook's run: after [x.__private = 'luddism'], [x.get_reverse()]
    still prints 'dlrow olleh'. *)
Example Reverser_hello_world :
  (x <- cell_Reverser (VStr (str "hello world")) (VStr (str "luddism")) ;;
   Reverser_get_reverse x) (mkState ∅ ∅)
  = (Ok (VStr (str "dlrow olleh")),
     (cell_Reverser (VStr (str "hello world")) (VStr (str "luddism"))
        (mkState ∅ ∅)).2).
Proof. vm_compute. reflexivity. Qed.

End ReverserFacts.

Section DogFacts.
Import Py.

(** C2: the list [tricks] of the class [Dog] is one object shared by the
    instances: after [d = Dog(n1)], [e = Dog(n2)], [d.add_trick(t1)] and
    [e.add_trick(t2)], both [d.tricks] and [e.tricks] are the same list,
    holding [t1] then [t2]; the assignment [e.kind = 'super-dog'] binds
    [kind] on [e] only, and [d.kind] is still 'canine'. *)
Theorem Dog_tricks_shared_kind_not (s : state) (n1 n2 t1 t2 : value) :
  exists d e tricks s',
    cell_Dog n1 n2 t1 t2 s = (Ok (d, e), s')
    /\ d <> e
    /\ getattr d "tricks" s' = (Ok tricks, s')
    /\ getattr e "tricks" s' = (Ok tricks, s')
    /\ show_tricks d s' = (Ok [t1; t2], s')
    /\ show_tricks e s' = (Ok [t1; t2], s')
    /\ getattr d "kind" s' = (Ok (VStr (str "canine")), s')
    /\ getattr e "kind" s' = (Ok (VStr (str "super-dog")), s').
Proof.
  py_eval (cell_Dog n1 n2 t1 t2) s
    by (unfold cell_Dog, class_Dog, Dog, Dog___init__, Dog_add_trick).
  do 4 eexists. unfold show_tricks.
  split; [reflexivity|].
  split; [ intros E; injection E; loc_neq | ].
  py_runs.
Qed.

(** The notebook's run prints 'canine' and ['roll over', 'play dead']. *)
Example Dog_Fido_and_Buddy :
  (dogs <- cell_Dog (VStr (str "Fido")) (VStr (str "Buddy"))
             (VStr (str "roll over")) (VStr (str "play dead")) ;;
   kind <- getattr dogs.1 "kind" ;;
   tricks <- show_tricks dogs.1 ;;
   ret (kind, tricks)) (mkState ∅ ∅)
  = (Ok (VStr (str "canine"),
         [VStr (str "roll over"); VStr (str "play dead")]),
     (cell_Dog (VStr (str "Fido")) (VStr (str "Buddy"))
        (VStr (str "roll over")) (VStr (str "play dead")) (mkState ∅ ∅)).2).
Proof. vm_compute. reflexivity. Qed.

End DogFacts.

Section DnaFacts.
Import Py.

Lemma dna_table :
  exists table,
    maketrans (str "ACGTacgt") (str "TGCAtgca") = Some table
    /\ forall c, c ∈ str "ACGTacgt" ->
                 default c (table !! c) = base_complement c.
Proof.
  eexists. split; [reflexivity|].
  intros c Hc. cbn in Hc.
  repeat (apply elem_of_cons in Hc as [-> | Hc]; [vm_compute; reflexivity|]).
  by apply elem_of_nil in Hc.
Qed.

Lemma base_complement_dna (c : N) :
  c ∈ str "ACGTacgt" ->
  base_complement c ∈ str "ACGTacgt"
  /\ base_complement (base_complement c) = c.
Proof.
  intros Hc. cbn in Hc.
  repeat (apply elem_of_cons in Hc as [-> | Hc];
          [split; [vm_compute; set_solver | reflexivity]|]).
  by apply elem_of_nil in Hc.
Qed.

Lemma translate_dna (table : gmap N N) (s : pystr) :
  (forall c, c ∈ str "ACGTacgt" -> default c (table !! c) = base_complement c) ->
  is_dna s ->
  translate table s = map base_complement s.
Proof.
  intros Ht Hs. unfold translate. apply map_ext_Forall.
  eapply Forall_impl; [exact Hs|]. intros c Hc. by apply Ht.
Qed.

Lemma reverse_complement_is_dna (s : pystr) :
  is_dna s -> is_dna (rev (map base_complement s)).
Proof.
  unfold is_dna. intros Hs. apply Forall_rev, Forall_map.
  eapply Forall_impl; [exact Hs|]. intros c Hc.
  by apply base_complement_dna.
Qed.

Lemma reverse_complement_twice (s : pystr) :
  is_dna s ->
  rev (map base_complement (rev (map base_complement s))) = s.
Proof.
  intros Hs. rewrite map_rev, rev_involutive, map_map.
  induction Hs as [|c s Hc Hs IH]; [reflexivity|].
  cbn. rewrite IH. f_equal. by apply base_complement_dna.
Qed.

Lemma Dna_reverse_complement_run (s : state) (self : value) (sequence : pystr) :
  getattr self "sequence" s = (Ok (VStr sequence), s) ->
  is_dna sequence ->
  Dna_reverse_complement self s
    = (Ok (VStr (rev (map base_complement sequence))), s).
Proof.
  intros Hget Hdna. unfold Dna_reverse_complement.
  destruct dna_table as (table & -> & Htable).
  unfold bind. rewrite Hget. unfold ret.
  by rewrite (translate_dna table sequence Htable Hdna).
Qed.

(** C8: on a [Dna] instance (any object, in fact, whose [sequence] is the
    string) with a sequence over ACGTacgt, [reverse_complement] returns the
    reverse of the base-wise complement (A<->T, C<->G, case kept) and ends
    in the state it started from, so that [name] and [sequence] are as
    before; the result is again over ACGTacgt, and [reverse_complement] of
    a new [Dna] made from it is the original sequence. *)
Theorem Dna_reverse_complement_involution
    (s : state) (self : value) (sequence : pystr) :
  getattr self "sequence" s = (Ok (VStr sequence), s) ->
  is_dna sequence ->
  let revcomp := rev (map base_complement sequence) in
  Dna_reverse_complement self s = (Ok (VStr revcomp), s)
  /\ is_dna revcomp
  /\ forall (name : value) (t : state) (cls : loc),
       globals t !! "Dna" = Some (VRef cls) ->
       exists other t',
         Dna name (VStr revcomp) t = (Ok other, t')
         /\ getattr other "sequence" t' = (Ok (VStr revcomp), t')
         /\ Dna_reverse_complement other t' = (Ok (VStr sequence), t').
Proof.
  intros Hget Hdna revcomp.
  split; [by apply Dna_reverse_complement_run|].
  split; [by apply reverse_complement_is_dna|].
  intros name t cls Hcls.
  assert (exists other t',
             Dna name (VStr revcomp) t = (Ok other, t')
             /\ getattr other "sequence" t' = (Ok (VStr revcomp), t'))
    as (other & t' & Hrun & Hseq).
  { destruct (Dna name (VStr revcomp) t) as [o t'] eqn:E. revert E.
    unfold Dna, Sequence___init__. py_run. rewrite Hcls. py_run.
    intros [= <- <-]. do 2 eexists. py_runs. }
  exists other, t'. split; [exact Hrun|]. split; [exact Hseq|].
  rewrite (Dna_reverse_complement_run t' other revcomp Hseq).
  - unfold revcomp. by rewrite reverse_complement_twice.
  - by apply reverse_complement_is_dna.
Qed.

(** The notebook's gene, [Dna('gene1', 'ACTGCGACCAAGACATAG')]. *)
Lemma Dna_reverse_complement_involution_witness :
  is_dna (str "ACTGCGACCAAGACATAG")
  /\ Dna_reverse_complement example_dna_self example_dna.2
     = (Ok (VStr (str "CTATGTCTTGGTCGCAGT")), example_dna.2).
Proof.
  assert (Hdna : is_dna (str "ACTGCGACCAAGACATAG")).
  { unfold is_dna. cbn. repeat constructor. }
  split; [exact Hdna|].
  refine (proj1 (Dna_reverse_complement_involution example_dna.2
                   example_dna_self (str "ACTGCGACCAAGACATAG") _ Hdna)).
  vm_compute. reflexivity.
Defined.

End DnaFacts.

Section ProteinFacts.
Import Py.

(** C9: with the overloaded [__eq__], [p1 == p2] is [p1.sequence ==
    p2.sequence] for any two objects with a [sequence], whatever their
    [name]; two instances made by [Protein(n1, s1)] and [Protein(n2, s2)]
    are distinct objects, keep their own names, and compare as [s1 == s2];
    in particular, built from the same string sequence they compare equal. *)
Theorem Protein_eq_is_sequence_eq (s : state) (n1 s1 n2 s2 : value) :
  (forall (t : state) (p1 p2 a b : value),
      getattr p1 "sequence" t = (Ok a, t) ->
      getattr p2 "sequence" t = (Ok b, t) ->
      Protein___eq__ p1 p2 t = (Ok (VBool (py_eq a b)), t))
  /\ (exists p1 p2 s',
        (class_Sequence ;; class_Protein ;; two_proteins n1 s1 n2 s2) s
          = (Ok (p1, p2), s')
        /\ p1 <> p2
        /\ getattr p1 "name" s' = (Ok n1, s')
        /\ getattr p2 "name" s' = (Ok n2, s')
        /\ getattr p1 "sequence" s' = (Ok s1, s')
        /\ getattr p2 "sequence" s' = (Ok s2, s')
        /\ Protein___eq__ p1 p2 s' = (Ok (VBool (py_eq s1 s2)), s'))
  /\ (exists s',
        (class_Sequence ;; class_Protein ;; cell_Protein_eq n1 s1 n2 s2) s
          = (Ok (VBool (py_eq s1 s2)), s'))
  /\ (forall x : pystr, py_eq (VStr x) (VStr x) = true).
Proof.
  assert (Heq : forall (t : state) (p1 p2 a b : value),
             getattr p1 "sequence" t = (Ok a, t) ->
             getattr p2 "sequence" t = (Ok b, t) ->
             Protein___eq__ p1 p2 t = (Ok (VBool (py_eq a b)), t)).
  { intros t p1 p2 a b Ha Hb. unfold Protein___eq__, bind.
    by rewrite Ha, Hb. }
  split; [exact Heq|].
  split; [|split].
  - py_eval (class_Sequence ;; class_Protein ;; two_proteins n1 s1 n2 s2) s
      by (unfold class_Sequence, class_Protein, two_proteins, Protein,
            Sequence___init__).
    do 3 eexists.
    split; [reflexivity|].
    split; [ intros E; injection E; loc_neq | ].
    do 4 (split; [ solve [ py_run; reflexivity ] | ]).
    apply Heq; py_run; reflexivity.
  - py_eval (class_Sequence ;; class_Protein ;; cell_Protein_eq n1 s1 n2 s2) s
      by (unfold class_Sequence, class_Protein, cell_Protein_eq, Protein,
            Sequence___init__, Protein___eq__).
    eexists. reflexivity.
  - intros x. cbn. by apply bool_decide_eq_true.
Qed.

End ProteinFacts.

(** * Properties of the image-analysis notebook *)

Section ArrayFacts.
Import Img.
Context {A B C : Type}.

Lemma shape_zip_with (f : A -> B -> C) (a : arr A) (b : arr B) :
  shape a = shape b -> shape (zip_with (zip_with f) a b) = shape a.
Proof.
  unfold shape. revert b.
  induction a as [|ra a IH]; intros [|rb b] E; try discriminate; [reflexivity|].
  cbn in *. injection E as Hr E.
  rewrite (IH b E). f_equal. by apply length_zip_with_l_eq.
Qed.

Lemma elementwise_Some (f : A -> B -> C) (a : arr A) (b : arr B) :
  shape a = shape b ->
  elementwise f a b = Some (zip_with (zip_with f) a b).
Proof. intros E. unfold elementwise. by rewrite bool_decide_eq_true_2. Qed.

Lemma elementwise_inv (f : A -> B -> C) (a : arr A) (b : arr B) (c : arr C) :
  elementwise f a b = Some c ->
  shape a = shape b /\ c = zip_with (zip_with f) a b.
Proof.
  unfold elementwise. case_bool_decide; [|discriminate].
  intros [= <-]. done.
Qed.

Lemma at_pos_zip_with (f : A -> B -> C) (a : arr A) (b : arr B) (p : nat * nat) :
  at_pos (zip_with (zip_with f) a b) p
  = (x ← at_pos a p; y ← at_pos b p; Some (f x y)).
Proof.
  unfold at_pos. rewrite lookup_zip_with.
  destruct (a !! p.1) as [ra|]; cbn; [|reflexivity].
  destruct (b !! p.1) as [rb|]; cbn.
  - rewrite lookup_zip_with. reflexivity.
  - by destruct (ra !! p.2).
Qed.

Lemma at_pos_scalar_op (f : A -> B) (a : arr A) (p : nat * nat) :
  at_pos (scalar_op f a) p = f <$> at_pos a p.
Proof.
  unfold at_pos, scalar_op. rewrite list_lookup_fmap.
  destruct (a !! p.1) as [ra|]; cbn; [|reflexivity].
  apply list_lookup_fmap.
Qed.

Lemma shape_scalar_op (f : A -> B) (a : arr A) :
  shape (scalar_op f a) = shape a.
Proof.
  unfold shape, scalar_op. rewrite map_map. apply map_ext.
  intros row. apply length_map.
Qed.

Lemma elem_of_ravel (a : arr A) (v : A) :
  v ∈ ravel a <-> exists p, at_pos a p = Some v.
Proof.
  unfold ravel, at_pos. rewrite list_elem_of_In, in_concat. split.
  - intros (row & Hrow & Hv).
    apply list_elem_of_In, list_elem_of_lookup in Hrow as [i Hi].
    apply list_elem_of_In, list_elem_of_lookup in Hv as [j Hj].
    exists (i, j). cbn. by rewrite Hi.
  - intros ([i j] & Hp). cbn in Hp.
    destruct (a !! i) as [row|] eqn:Hi; [|discriminate]. cbn in Hp.
    exists row. split; apply list_elem_of_In, list_elem_of_lookup; eauto.
Qed.

End ArrayFacts.

Section MaxFacts.
Import Img.

Lemma foldl_max_spec (xs : list Z) (x : Z) :
  let m := foldl Z.max x xs in
  m ∈ x :: xs /\ Forall (fun v => v <= m) (x :: xs).
Proof.
  revert x. induction xs as [|y xs IH]; intros x; cbn.
  - split; [left | repeat constructor; lia].
  - destruct (IH (Z.max x y)) as [Hin Hle]. split.
    + apply elem_of_cons in Hin as [E | Hin]; [|by do 2 right].
      rewrite E. destruct (Z.max_spec x y) as [[_ ->] | [_ ->]];
        [right; left | left].
    + apply Forall_cons in Hle as [Hm Hle].
      repeat constructor; [lia | lia | exact Hle].
Qed.

Lemma amax_spec (a : arr Z) :
  ravel a <> [] ->
  exists m, amax a = Some m /\ m ∈ ravel a /\ Forall (fun v => v <= m) (ravel a).
Proof.
  unfold amax. destruct (ravel a) as [|x xs]; [done|]. intros _.
  eexists. split; [reflexivity|]. apply foldl_max_spec.
Qed.

End MaxFacts.

Section NucleusFacts.
Import Img.

Variable w : Z.
Variable uniform_filter : arr Z -> Z -> arr Z.

(** The filter returns an array of the shape of its input. *)
Hypothesis uniform_filter_shape :
  forall input size, shape (uniform_filter input size) = shape input.

(** C4: the background subtraction succeeds on every smoothed image; at
    every position where [nuc_smooth] is strictly below the local
    background [nuc_smooth_bg], the subtracted image is 0 (elsewhere it is
    the wrapped difference); and [nuc_mask] is true at exactly the
    positions where the subtracted image is strictly greater than 10. *)
Theorem background_subtracted_then_thresholded (nuc_smooth : arr Z) :
  exists nuc_smooth_bg nuc_smooth_bgsub,
    adaptive_background_subtraction w uniform_filter nuc_smooth
      = Some (nuc_smooth_bg, nuc_smooth_bgsub)
    /\ nuc_smooth_bg = uniform_filter nuc_smooth 20
    /\ shape nuc_smooth_bgsub = shape nuc_smooth
    /\ (forall p x b,
          at_pos nuc_smooth p = Some x ->
          at_pos nuc_smooth_bg p = Some b ->
          (x < b -> at_pos nuc_smooth_bgsub p = Some 0)
          /\ (b <= x -> at_pos nuc_smooth_bgsub p = Some ((x - b) mod 2 ^ w)))
    /\ shape (apply_threshold nuc_smooth_bgsub) = shape nuc_smooth_bgsub
    /\ (forall p,
          at_pos (apply_threshold nuc_smooth_bgsub) p = Some true
          <-> exists v, at_pos nuc_smooth_bgsub p = Some v /\ 10 < v)
    /\ (forall p,
          at_pos (apply_threshold nuc_smooth_bgsub) p = Some false
          <-> exists v, at_pos nuc_smooth_bgsub p = Some v /\ v <= 10).
Proof.
  pose proof (uniform_filter_shape nuc_smooth 20) as Hbg. symmetry in Hbg.
  pose proof (shape_zip_with (usub w) _ _ Hbg) as Hsub.
  pose proof (shape_zip_with Z.ltb _ _ Hbg) as Hbelow.
  unfold adaptive_background_subtraction, set_where.
  rewrite !elementwise_Some by done. cbn.
  rewrite elementwise_Some by congruence.
  cbn. do 2 eexists. split; [reflexivity|].
  split; [reflexivity|].
  split; [rewrite shape_zip_with; congruence|].
  split; [|split; [apply shape_scalar_op|split]].
  - intros p x b Hx Hb. rewrite !at_pos_zip_with, Hx, Hb. cbn.
    split; intros Hlt.
    + by rewrite (proj2 (Z.ltb_lt x b) Hlt).
    + by rewrite (proj2 (Z.ltb_ge x b) Hlt).
  - intros p. unfold apply_threshold. rewrite at_pos_scalar_op.
    destruct (at_pos _ p) as [v|]; cbn; split.
    + intros [= H]. exists v. split; [done|]. by apply Z.ltb_lt.
    + intros (v' & [= <-] & H). f_equal. by apply Z.ltb_lt.
    + discriminate.
    + by intros (v' & [=] & _).
  - intros p. unfold apply_threshold. rewrite at_pos_scalar_op.
    destruct (at_pos _ p) as [v|]; cbn; split.
    + intros [= H]. exists v. split; [done|]. by apply Z.ltb_ge.
    + intros (v' & [= <-] & H). f_equal. by apply Z.ltb_ge.
    + discriminate.
    + by intros (v' & [=] & _).
Qed.

End NucleusFacts.

(** On an 8-bit image, with a filter that answers 7 everywhere. *)
Lemma background_subtracted_then_thresholded_witness :
  exists nuc_smooth_bg nuc_smooth_bgsub,
    Img.adaptive_background_subtraction 8
        (fun input _ => Img.scalar_op (fun _ => 7) input)
        [[1; 9; 30]; [7; 8; 6]]
      = Some (nuc_smooth_bg, nuc_smooth_bgsub)
    /\ nuc_smooth_bgsub = [[0; 2; 23]; [0; 1; 0]]
    /\ Img.apply_threshold nuc_smooth_bgsub
       = [[false; false; true]; [false; false; false]].
Proof.
  destruct (background_subtracted_then_thresholded 8
              (fun input _ => Img.scalar_op (fun _ => 7) input)
              (fun input _ => shape_scalar_op (fun _ => 7) input)
              [[1; 9; 30]; [7; 8; 6]])
    as (bg & bgsub & Hrun & _).
  exists bg, bgsub. split; [exact Hrun|].
  vm_compute in Hrun. injection Hrun as <- <-.
  split; reflexivity.
Defined.

Section WatershedFacts.
Import Img.

Variable watershed : arr float -> arr Z -> arr Z.

(** What the library promises of the watershed: a pixel of the result is
    unlabelled (0) or carries the label of one of the markers. *)
Hypothesis watershed_labels :
  forall image markers v,
    v ∈ ravel (watershed image markers) -> v = 0 \/ v ∈ ravel markers.

Lemma seeds_labels (nuc_labeled : arr Z) (mask : arr bool) (k : Z) (seeds : arr Z) :
  set_where nuc_labeled mask k = Some seeds ->
  forall v, v ∈ ravel seeds -> v = k \/ v ∈ ravel nuc_labeled.
Proof.
  intros [_ ->]%elementwise_inv v [p Hp]%elem_of_ravel.
  rewrite at_pos_zip_with in Hp.
  destruct (at_pos nuc_labeled p) as [x|] eqn:Hx; [|discriminate].
  destruct (at_pos mask p) as [[]|]; cbn in Hp; try discriminate;
    injection Hp as <-; [by left|].
  right. apply elem_of_ravel. eauto.
Qed.

Lemma remove_label (act_ws : arr Z) (k : Z) :
  exists cleaned,
    set_where act_ws (scalar_op (fun x => x =? k) act_ws) 0 = Some cleaned
    /\ forall v, v ∈ ravel cleaned ->
                 exists x, x ∈ ravel act_ws /\ v = (if x =? k then 0 else x).
Proof.
  unfold set_where. rewrite elementwise_Some by (by rewrite shape_scalar_op).
  eexists. split; [reflexivity|].
  intros v [p Hp]%elem_of_ravel.
  rewrite at_pos_zip_with, at_pos_scalar_op in Hp.
  destruct (at_pos act_ws p) as [x|] eqn:Hx; [|discriminate].
  cbn in Hp. injection Hp as <-.
  exists x. split; [|reflexivity]. apply elem_of_ravel. eauto.
Qed.

(** C5: on a labelling without negative labels and a background image of
    its shape, the segmentation succeeds, and after the removal of the
    background no pixel of [act_ws] carries the label
    [nuc_labeled.max()+1] of the background seed: every pixel is 0 or a
    label of [nuc_labeled] between 1 and [nuc_labeled.max()]. *)
Theorem watershed_background_removed
    (act_sobel act_bgsub : arr float) (nuc_labeled : arr Z) :
  shape act_bgsub = shape nuc_labeled ->
  ravel nuc_labeled <> [] ->
  Forall (fun v => 0 <= v) (ravel nuc_labeled) ->
  exists background seeds act_ws,
    amax nuc_labeled = Some background
    /\ prepare_seeds nuc_labeled act_bgsub = Some seeds
    /\ segment_cells watershed act_sobel act_bgsub nuc_labeled = Some act_ws
    /\ forall v, v ∈ ravel act_ws ->
         v <> background + 1
         /\ (v = 0 \/ (1 <= v <= background /\ v ∈ ravel nuc_labeled)).
Proof.
  intros Hshape Hne Hpos.
  destruct (amax_spec nuc_labeled Hne) as (m & Hm & Hin & Hmax).
  assert (0 <= m) as Hm0.
  { rewrite Forall_forall in Hpos. by apply Hpos. }
  destruct (remove_label
              (watershed act_sobel
                 (zip_with (zip_with (fun x (b : bool) => if b then m + 1 else x))
                    nuc_labeled
                    (scalar_op (fun x => PrimFloat.eqb x 0) act_bgsub)))
              (m + 1)) as (act_ws & Hclean & Hv).
  assert (Hseeds :
    prepare_seeds nuc_labeled act_bgsub
    = Some (zip_with (zip_with (fun x (b : bool) => if b then m + 1 else x))
              nuc_labeled (scalar_op (fun x => PrimFloat.eqb x 0) act_bgsub))).
  { unfold prepare_seeds. rewrite Hm. cbn. unfold set_where.
    apply elementwise_Some. by rewrite shape_scalar_op. }
  exists m. eexists. exists act_ws.
  split; [exact Hm|]. split; [exact Hseeds|]. split.
  - unfold segment_cells. rewrite Hseeds. cbn.
    unfold watershed_cells. rewrite Hm. cbn. exact Hclean.
  - intros v (x & Hx & ->)%Hv.
    apply watershed_labels in Hx as [-> | Hx].
    { destruct (Z.eqb_spec 0 (m + 1)); [lia|]. split; [lia|by left]. }
    apply (seeds_labels nuc_labeled
             (scalar_op (fun x => PrimFloat.eqb x 0) act_bgsub) (m + 1))
      in Hx as [-> | Hx];
      [| | unfold set_where; apply elementwise_Some; by rewrite shape_scalar_op].
    { rewrite Z.eqb_refl. split; [lia|by left]. }
    rewrite Forall_forall in Hpos, Hmax.
    pose proof (Hpos x Hx). pose proof (Hmax x Hx).
    destruct (Z.eqb_spec x (m + 1)); [lia|].
    split; [done|]. destruct (decide (x = 0)); [by left|].
    right. split; [lia|done].
Qed.

End WatershedFacts.

(** Two nuclei on a 2 x 3 image whose last column is background, with a
    watershed that leaves the seeds where they are. *)
Lemma watershed_background_removed_witness :
  exists background seeds act_ws,
    Img.amax [[1; 0; 0]; [0; 2; 0]] = Some background
    /\ Img.prepare_seeds [[1; 0; 0]; [0; 2; 0]]
         [[5%float; 3%float; 0%float]; [2%float; 4%float; 0%float]] = Some seeds
    /\ Img.segment_cells (fun _ markers => markers)
         [[0%float; 1%float; 0%float]; [1%float; 0%float; 1%float]]
         [[5%float; 3%float; 0%float]; [2%float; 4%float; 0%float]]
         [[1; 0; 0]; [0; 2; 0]] = Some act_ws
    /\ seeds = [[1; 0; 3]; [0; 2; 3]]
    /\ act_ws = [[1; 0; 0]; [0; 2; 0]].
Proof.
  destruct (watershed_background_removed (fun _ markers => markers)
              (fun _ markers v H => or_intror H)
              [[0%float; 1%float; 0%float]; [1%float; 0%float; 1%float]]
              [[5%float; 3%float; 0%float]; [2%float; 4%float; 0%float]]
              [[1; 0; 0]; [0; 2; 0]])
    as (background & seeds & act_ws & Hmax & Hseeds & Hrun & _).
  - reflexivity.
  - discriminate.
  - cbn. repeat constructor; lia.
  - exists background, seeds, act_ws.
    split; [exact Hmax|]. split; [exact Hseeds|]. split; [exact Hrun|].
    vm_compute in Hseeds, Hrun.
    injection Hseeds as <-. injection Hrun as <-. split; reflexivity.
Defined.

Section RegionFacts.
Import Img.

Lemma column_Some (props : list region) (k : string) :
  Forall (fun r : region => exists x, r !! k = Some (PScalar x)) props ->
  is_Some (column props k).
Proof.
  intros H. unfold column.
  assert (exists col : list scalar,
             Forall2 (fun (r : region) x => r !! k = Some (PScalar x)) props col)
    as [col Hcol].
  { induction H as [|r props [x Hx] _ [col IH]]; [by exists []|].
    exists (x :: col). by constructor. }
  assert (mapM (fun r : region => r !! k) props = Some (PScalar <$> col)) as ->.
  { apply mapM_Some. apply Forall2_fmap_r.
    eapply Forall2_impl; [exact Hcol|]. by intros r x ->. }
  cbn. exists col. unfold np_array. apply mapM_Some, Forall2_fmap_l.
  by apply Forall_Forall2_diag, Forall_true.
Qed.

Lemma column_spec (props : list region) (k : string) (col : list scalar) :
  column props k = Some col ->
  length col = length props
  /\ forall i r, props !! i = Some r -> r !! k = PScalar <$> col !! i.
Proof.
  unfold column. intros H.
  destruct (mapM _ props) as [values|] eqn:Hvalues; [|discriminate].
  cbn in H. apply mapM_Some in Hvalues. apply mapM_Some in H.
  split.
  - apply Forall2_length in Hvalues, H. congruence.
  - intros i r Hr.
    destruct (Forall2_lookup_l _ _ _ _ _ Hvalues Hr) as (v & Hv & Hrv).
    destruct (Forall2_lookup_l _ _ _ _ _ H Hv) as (x & Hx & Hvx).
    rewrite Hrv, Hx. cbn. f_equal. by destruct v; simplify_eq.
Qed.

(** The loop over the property names. *)
Lemma fill_columns (props : list region) (names : list string)
    (propdict : gmap string (list scalar)) :
  (forall k, k ∈ names -> is_Some (column props k)) ->
  exists filled,
    foldl (fun acc prop_name =>
             propdict ← acc;
             values ← column props prop_name;
             Some (<[prop_name := values]> propdict))
          (Some propdict) names = Some filled
    /\ forall k, filled !! k
                 = if decide (k ∈ names) then column props k else propdict !! k.
Proof.
  revert propdict. induction names as [|name names IH]; intros propdict Hcols.
  - exists propdict. split; [reflexivity|]. intros k.
    by rewrite decide_False by apply not_elem_of_nil.
  - destruct (Hcols name) as [col Hcol]; [left|].
    destruct (IH (<[name := col]> propdict)) as (filled & Hfill & Hlook).
    { intros k Hk. apply Hcols. by right. }
    exists filled. split.
    + cbn. rewrite Hcol. cbn. exact Hfill.
    + intros k. rewrite Hlook.
      destruct (decide (k ∈ names)) as [Hin|Hout].
      * by rewrite decide_True by (by right).
      * destruct (decide (k = name)) as [->|Hne].
        -- rewrite lookup_insert_eq, decide_True by left. done.
        -- rewrite lookup_insert_ne by done.
           rewrite decide_False; [done|].
           intros [?|?]%elem_of_cons; done.
Qed.

(** What [props2dict] computes, in full. *)
Lemma props2dict_spec (props : list region) (first : region) :
  props !! 0%nat = Some first ->
  same_kind first props ->
  exists propdict,
    props2dict props = Some propdict
    /\ forall k,
         (forall v, first !! k = Some v -> is_tuple_or_ndarray v = false ->
                    exists col, propdict !! k = Some col
                                /\ column props k = Some col)
         /\ (forall col, propdict !! k = Some col ->
               column props k = Some col
               /\ exists v, first !! k = Some v
                            /\ is_tuple_or_ndarray v = false).
Proof.
  intros Hfirst Hkind. unfold props2dict. rewrite Hfirst. cbn.
  set (empty_columns :=
         (fun _ : prop_value => @nil scalar)
           <$> filter (fun kv : string * prop_value =>
                         is_tuple_or_ndarray kv.2 = false) first).
  assert (Hkeys : forall k,
             k ∈ map fst (map_to_list empty_columns)
             <-> exists v, first !! k = Some v /\ is_tuple_or_ndarray v = false).
  { intros k. rewrite list_elem_of_In, in_map_iff. split.
    - intros ([k' col] & <- & Hin). cbn.
      apply list_elem_of_In, elem_of_map_to_list in Hin.
      unfold empty_columns in Hin. rewrite lookup_fmap in Hin.
      destruct (filter _ first !! k') as [v|] eqn:Hv; [|discriminate].
      apply map_lookup_filter_Some in Hv as [Hv Hs]. eauto.
    - intros (v & Hv & Hs). exists (k, []). split; [reflexivity|].
      apply list_elem_of_In, elem_of_map_to_list.
      unfold empty_columns. rewrite lookup_fmap.
      by rewrite (proj2 (map_lookup_filter_Some _ first k v) (conj Hv Hs)). }
  destruct (fill_columns props (map fst (map_to_list empty_columns))
              empty_columns) as (filled & Hfill & Hlook).
  { intros k (v & Hv & Hs)%Hkeys. apply column_Some.
    unfold same_kind in Hkind. eapply Forall_impl; [exact Hkind|].
    intros r Hr. by apply (Hr k v). }
  exists filled. split; [exact Hfill|].
  intros k. rewrite Hlook. split.
  - intros v Hv Hs.
    rewrite decide_True by (apply Hkeys; eauto).
    destruct (column_Some props k) as [col Hcol]; [|eauto].
    unfold same_kind in Hkind. eapply Forall_impl; [exact Hkind|].
    intros r Hr. by apply (Hr k v).
  - intros col. destruct (decide _) as [Hin|Hout].
    + intros Hcol. split; [exact Hcol|]. by apply Hkeys.
    + intros Hcol. exfalso. apply Hout, Hkeys.
      unfold empty_columns in Hcol. rewrite lookup_fmap in Hcol.
      destruct (filter _ first !! k) as [v|] eqn:Hv; [|discriminate].
      apply map_lookup_filter_Some in Hv as [Hv Hs]. eauto.
Qed.

(** C10: for a non-empty list [props] of region-property records of one
    kind, [props2dict] returns a dictionary whose keys are exactly the
    property names of the first record whose value is neither a tuple nor
    an array; the value of a key is an array with one entry per record, the
    i-th entry being the i-th record's value of that property. *)
Theorem props2dict_columns (props : list region) (first : region) :
  props !! 0%nat = Some first ->
  same_kind first props ->
  exists propdict,
    props2dict props = Some propdict
    /\ (forall k, is_Some (propdict !! k)
                  <-> exists v, first !! k = Some v
                                /\ is_tuple_or_ndarray v = false)
    /\ (forall k col, propdict !! k = Some col ->
          length col = length props
          /\ forall i r, props !! i = Some r ->
                         r !! k = PScalar <$> col !! i).
Proof.
  intros Hfirst Hkind.
  destruct (props2dict_spec props first Hfirst Hkind) as (propdict & Hrun & H).
  exists propdict. split; [exact Hrun|]. split.
  - intros k. split.
    + intros [col Hcol]. by apply (H k) in Hcol as [_ ?].
    + intros (v & Hv & Hs).
      destruct (proj1 (H k) v Hv Hs) as (col & Hcol & _). by exists col.
  - intros k col Hcol. apply (H k) in Hcol as [Hcol _].
    by apply column_spec.
Qed.

Lemma example_props_same_kind :
  same_kind (example_region 1 12.5 3 4) example_props.
Proof.
  unfold same_kind, example_props.
  repeat apply Forall_cons_2; [| | |apply Forall_nil_2].
  all: intros k v Hv Hs; unfold example_region in *.
  all: repeat (apply lookup_insert_Some in Hv as [[<- <-] | [? Hv]];
               [first [discriminate Hs | eexists; reflexivity]|]).
  all: by rewrite lookup_empty in Hv.
Qed.

Lemma props2dict_columns_witness :
  exists propdict,
    props2dict example_props = Some propdict
    /\ propdict !! "label" = Some [SInt 1; SInt 2; SInt 3]
    /\ propdict !! "mean_intensity" = Some [SFloat 12.5; SFloat 87.25; SFloat 20]
    /\ propdict !! "centroid" = None
    /\ propdict !! "coords" = None.
Proof.
  destruct (props2dict_columns example_props (example_region 1 12.5 3 4)
              eq_refl example_props_same_kind) as (propdict & Hrun & _).
  exists propdict. split; [exact Hrun|].
  vm_compute in Hrun. injection Hrun as <-.
  repeat split; vm_compute; reflexivity.
Defined.

(** C6: the labels passed to [svc.fit] are the ground truth made from the
    pH3 channel: for every segmented nucleus [i], the label is true if and
    only if the mean pH3 intensity of that nucleus,
    [propdict_pH3['mean_intensity'][i]], is strictly greater than 20. *)
Theorem ground_truth_is_pH3_above_20 {dataframe : Type}
    (propdf_stand : dataframe) (nuc_props_pH3 : list region)
    (first : region) (x0 : scalar) :
  nuc_props_pH3 !! 0%nat = Some first ->
  same_kind first nuc_props_pH3 ->
  first !! "mean_intensity" = Some (PScalar x0) ->
  exists propdict_pH3 mean_intensity call,
    props2dict nuc_props_pH3 = Some propdict_pH3
    /\ propdict_pH3 !! "mean_intensity" = Some mean_intensity
    /\ ground_truth propdict_pH3 = Some (fit_y call)
    /\ train_classifier propdf_stand nuc_props_pH3 = Some call
    /\ fit_X call = propdf_stand
    /\ length (fit_y call) = length nuc_props_pH3
    /\ (forall i r, nuc_props_pH3 !! i = Some r ->
          r !! "mean_intensity" = PScalar <$> mean_intensity !! i)
    /\ (forall i, fit_y call !! i
                  = (fun x => scalar_gt x 20) <$> mean_intensity !! i)
    /\ (forall i, fit_y call !! i = Some true
                  <-> exists x, mean_intensity !! i = Some x
                                /\ scalar_gt x 20 = true)
    /\ (forall y, scalar_gt (SFloat y) 20 = PrimFloat.ltb 20 y)
    /\ (forall m, scalar_gt (SInt m) 20 = true <-> 20 < m).
Proof.
  intros Hfirst Hkind Hmean.
  destruct (props2dict_spec nuc_props_pH3 first Hfirst Hkind)
    as (propdict & Hrun & H).
  destruct (proj1 (H "mean_intensity") (PScalar x0) Hmean eq_refl)
    as (mean_intensity & Hlook & Hcol).
  apply column_spec in Hcol as [Hlen Hcol].
  exists propdict, mean_intensity,
    (mkFit propdf_stand (map (fun x => scalar_gt x 20) mean_intensity)).
  split; [exact Hrun|]. split; [exact Hlook|].
  split; [unfold ground_truth; by rewrite Hlook|].
  split; [unfold train_classifier, ground_truth; by rewrite Hrun; cbn; rewrite Hlook|].
  split; [reflexivity|].
  split; [cbn; by rewrite length_map|].
  split; [exact Hcol|].
  split; [intros i; apply list_lookup_fmap|].
  split; [|split].
  - intros i. cbn. change (map ?f ?l) with (f <$> l).
    rewrite list_lookup_fmap.
    destruct (mean_intensity !! i) as [x|]; cbn; split.
    + intros [= Hx]. eauto.
    + by intros (x' & [= <-] & ->).
    + discriminate.
    + by intros (x' & [=] & _).
  - reflexivity.
  - intros m. cbn. apply Z.ltb_lt.
Qed.

Lemma ground_truth_is_pH3_above_20_witness :
  exists call,
    train_classifier tt example_props = Some call
    /\ fit_y call = [false; true; false].
Proof.
  destruct (ground_truth_is_pH3_above_20 tt example_props
              (example_region 1 12.5 3 4) (SFloat 12.5)
              eq_refl example_props_same_kind eq_refl)
    as (propdict & mean_intensity & call & _ & _ & _ & Hrun & _).
  exists call. split; [exact Hrun|].
  vm_compute in Hrun. by injection Hrun as <-.
Defined.

End RegionFacts.

(** * Properties of the notebooks as programs *)

Section NotebookFacts.
Import Nb.

(** The cell of the image-analysis notebook that defines [threshold_plot]
    ends with [interactive(threshold_plot, threshold=(1,255,1))]: a slider
    that the user moves, an input from outside the program that is not
    among the listed ones. *)
Lemma threshold_slider_is_an_input :
  exists cell cs c e,
    (cell, cs) ∈ image_analysis_notebook
    /\ c ∈ cs
    /\ effect_of c = Some e
    /\ is_external e = true
    /\ e ∉ listed_inputs.
Proof.
  exists 18%nat. eexists.
  exists (LibArg "ipywidgets.interactive" "threshold_plot").
  exists (UserInput "ipywidgets.interactive" "threshold_plot").
  split.
  { unfold image_analysis_notebook. do 7 right. left. }
  split; [do 6 right; left|].
  split; [reflexivity|]. split; [reflexivity|].
  unfold listed_inputs. intros H.
  repeat (apply elem_of_cons in H as [H|H]; [discriminate H|]).
  by apply elem_of_nil in H.
Qed.

(** C7, amended: every call of the three notebooks is classified; the
    image-analysis notebook reads the one image file '../data/HT29.tif'
    and takes the user's setting of the threshold slider, the
    machine-learning notebook loads the two bundled datasets, the
    object-oriented programming notebook takes nothing from outside; no
    call writes a file. *)
Theorem external_inputs_of_the_notebooks :
  external_effects image_analysis_notebook
    = Some [ReadFile "skimage.io.imread" "../data/HT29.tif";
            UserInput "ipywidgets.interactive" "threshold_plot"]
  /\ external_effects machine_learning_notebook
     = Some [BundledData "sklearn.datasets.load_breast_cancer";
             BundledData "sklearn.datasets.load_iris"]
  /\ external_effects oop_notebook = Some [].
Proof. repeat split; vm_compute; reflexivity. Qed.

End NotebookFacts.

(** * More properties of the object-oriented programming notebook *)

Section MyClassFacts.
Import Py.

(** X13: Two instances of [MyClass] hold two different lists in [data], both
    empty, so that an item appended to the one does not show in the other
    (unlike [Dog.tricks]); the class variable [i] and the docstring are
    read through the class, and [x.i = 2] changes [i] for [x] only. *)
Theorem MyClass_data_is_per_instance (s : state) (v : value) :
  exists x y dx dy s1,
    (Oop.class_MyClass ;; x <- Oop.MyClass ;; y <- Oop.MyClass ;; ret (x, y)) s
      = (Ok (x, y), s1)
    /\ getattr x "data" s1 = (Ok dx, s1)
    /\ getattr y "data" s1 = (Ok dy, s1)
    /\ dx <> dy
    /\ list_items dx s1 = (Ok [], s1)
    /\ list_items dy s1 = (Ok [], s1)
    /\ getattr x "i" s1 = (Ok (VInt 12345), s1)
    /\ getattr x "__doc__" s1 = (Ok (VStr (str "A simple example class")), s1)
    /\ (exists s2,
          list_append dx v s1 = (Ok tt, s2)
          /\ list_items dx s2 = (Ok [v], s2)
          /\ list_items dy s2 = (Ok [], s2))
    /\ (exists s2,
          setattr x "i" (VInt 2) s1 = (Ok tt, s2)
          /\ getattr x "i" s2 = (Ok (VInt 2), s2)
          /\ getattr y "i" s2 = (Ok (VInt 12345), s2)).
Proof.
  py_eval (Oop.class_MyClass ;; x <- Oop.MyClass ;; y <- Oop.MyClass ;; ret (x, y)) s
    by (unfold Oop.class_MyClass, Oop.MyClass, Oop.MyClass___init__).
  do 5 eexists.
  split; [reflexivity|].
  do 2 (split; [ solve [ py_run; reflexivity ] | ]).
  split; [ intros E; injection E; loc_neq | ].
  do 4 (split; [ solve [ py_run; reflexivity ] | ]).
  split; eexists; py_runs.
Qed.

(** The notebook's cells on [x.i]: 12345 is printed, then 2. *)
Theorem MyClass_i_is_shadowed (s : state) :
  exists s',
    (Oop.class_MyClass ;; Oop.cell_MyClass_i) s
      = (Ok (VInt 12345, VInt 2), s')
    /\ (cls <- load_name "MyClass" ;; getattr cls "i") s'
       = (Ok (VInt 12345), s').
Proof.
  py_eval (Oop.class_MyClass ;; Oop.cell_MyClass_i) s
    by (unfold Oop.class_MyClass, Oop.cell_MyClass_i, Oop.MyClass,
          Oop.MyClass___init__).
  eexists. py_runs.
Qed.

End MyClassFacts.

Section BetterIntFacts.

(** X16: [is_odd] is right on every integer, the negative ones included. *)
Theorem BetterInt_is_odd_correct (n : Z) :
  Oop.BetterInt_is_odd n = Z.odd n.
Proof.
  unfold Oop.BetterInt_is_odd. rewrite Zmod_odd.
  by destruct (Z.odd n).
Qed.

End BetterIntFacts.

Section SingleUnderscoreFacts.
Import Py.

(** X14: With the single underscore nothing is mangled: the assignment
    [x._private = v] from outside the class replaces what [__init__]
    stored, and [x.get_reverse()] returns [v] from then on; [x.public] is
    as before. *)
Theorem Reverser_single_underscore_is_overwritten
    (s : state) (name : pystr) (v : value) :
  mangle "Reverser" "_private" = "_private"
  /\ exists x s1 s2,
       (class_Reverser ;; x <- Oop.Reverser (VStr name) ;; store_name "x" x ;; ret x) s
         = (Ok x, s1)
       /\ Oop.Reverser_get_reverse x s1 = (Ok (VStr (rev name)), s1)
       /\ Oop.cell_Reverser (VStr name) v s = (Ok x, s2)
       /\ Oop.Reverser_get_reverse x s2 = (Ok v, s2)
       /\ getattr x "public" s2 = (Ok (VStr name), s2).
Proof.
  split; [reflexivity|].
  py_eval (class_Reverser ;; x <- Oop.Reverser (VStr name) ;; store_name "x" x ;; ret x) s
    by (unfold class_Reverser, Oop.Reverser, Oop.Reverser___init__;
        change (mangle "Reverser" "_private") with "_private").
  py_eval (Oop.cell_Reverser (VStr name) v) s
    by (unfold Oop.cell_Reverser, class_Reverser, Oop.Reverser,
          Oop.Reverser___init__;
        change (mangle "Reverser" "_private") with "_private").
  do 3 eexists. unfold Oop.Reverser_get_reverse.
  change (mangle "Reverser" "_private") with "_private".
  split; [reflexivity|].
  py_runs.
Qed.

End SingleUnderscoreFacts.

Section DefaultEqFacts.
Import Py.

(** X15: Before [__eq__] is overloaded, two instances never compare equal,
    not even when made from the same name and sequence, while an instance
    compares equal to itself. *)
Theorem Protein_default_eq_is_identity (s : state) (n1 s1 n2 s2 : value) :
  (exists s',
      (class_Sequence ;; class_Protein ;; Oop.cell_Protein_eq n1 s1 n2 s2) s
        = (Ok (VBool false), s'))
  /\ (exists p s',
        (class_Sequence ;; class_Protein ;; Protein n1 s1) s = (Ok p, s')
        /\ py_eq p p = true).
Proof.
  split.
  - py_eval (class_Sequence ;; class_Protein ;; Oop.cell_Protein_eq n1 s1 n2 s2) s
      by (unfold class_Sequence, class_Protein, Oop.cell_Protein_eq, Protein,
            Sequence___init__).
    eexists. cbn [py_eq as_num].
    rewrite bool_decide_eq_false_2 by loc_neq. reflexivity.
  - py_eval (class_Sequence ;; class_Protein ;; Protein n1 s1) s
      by (unfold class_Sequence, class_Protein, Protein, Sequence___init__).
    do 2 eexists. split; [reflexivity|].
    cbn. by apply bool_decide_eq_true.
Qed.

End DefaultEqFacts.

Section ComplexArityFacts.
Import Py.

(** X12: [Complex(args)] succeeds exactly when two positional arguments are
    given; with fewer or more, [__init__] raises. *)
Theorem Complex_succeeds_iff_two_arguments (s : state) (args : list value) :
  (exists x s', (class_Complex ;; Complex args) s = (Ok x, s'))
  <-> length args = 2%nat.
Proof.
  destruct args as [|a [|b [|c rest]]].
  - py_eval (class_Complex ;; Complex []) s
      by (unfold class_Complex, Complex, Complex___init__).
    split; [by intros (x & s' & E) | done].
  - py_eval (class_Complex ;; Complex [a]) s
      by (unfold class_Complex, Complex, Complex___init__).
    split; [by intros (x & s' & E) | done].
  - py_eval (class_Complex ;; Complex [a; b]) s
      by (unfold class_Complex, Complex, Complex___init__).
    split; [done | eauto].
  - py_eval (class_Complex ;; Complex (a :: b :: c :: rest)) s
      by (unfold class_Complex, Complex, Complex___init__).
    split; [by intros (x & s' & E) | done].
Qed.

End ComplexArityFacts.

Section DnaAnyStringFacts.
Import Py.

Lemma dna_table_any :
  exists table,
    maketrans (str "ACGTacgt") (str "TGCAtgca") = Some table
    /\ forall c, default c (table !! c) = base_complement c.
Proof.
  exists (<[116%N := 97%N]> (<[103%N := 99%N]> (<[99%N := 103%N]>
          (<[97%N := 116%N]> (<[84%N := 65%N]> (<[71%N := 67%N]>
          (<[67%N := 71%N]> (<[65%N := 84%N]> ∅)))))))).
  split; [reflexivity|].
  intros c. unfold base_complement.
  repeat (rewrite lookup_insert; case_decide; [subst c; reflexivity |]).
  rewrite lookup_empty. cbn.
  repeat (case_decide; [congruence|]). reflexivity.
Qed.

Lemma base_complement_twice (c : N) :
  base_complement (base_complement c) = c.
Proof.
  destruct (decide (c = 65%N)) as [->|?]; [reflexivity|].
  destruct (decide (c = 84%N)) as [->|?]; [reflexivity|].
  destruct (decide (c = 67%N)) as [->|?]; [reflexivity|].
  destruct (decide (c = 71%N)) as [->|?]; [reflexivity|].
  destruct (decide (c = 97%N)) as [->|?]; [reflexivity|].
  destruct (decide (c = 116%N)) as [->|?]; [reflexivity|].
  destruct (decide (c = 99%N)) as [->|?]; [reflexivity|].
  destruct (decide (c = 103%N)) as [->|?]; [reflexivity|].
  assert (base_complement c = c) as Hc.
  { unfold base_complement. by rewrite !decide_False by done. }
  by rewrite !Hc.
Qed.

(** X10: [reverse_complement] on any string: letters outside ACGTacgt (an N
    for an unknown base, say) are kept, the result has the length of the
    sequence, the state is as before, and the reverse complement of the
    result is the sequence again. *)
Theorem Dna_reverse_complement_any_string
    (s : state) (self : value) (sequence : pystr) :
  getattr self "sequence" s = (Ok (VStr sequence), s) ->
  let revcomp := rev (map base_complement sequence) in
  Dna_reverse_complement self s = (Ok (VStr revcomp), s)
  /\ length revcomp = length sequence
  /\ rev (map base_complement revcomp) = sequence
  /\ forall i c, sequence !! i = Some c -> c ∉ str "ACGTacgt" ->
                 revcomp !! (length sequence - S i)%nat = Some c.
Proof.
  intros Hget revcomp. split; [|split; [|split]].
  - unfold Dna_reverse_complement.
    destruct dna_table_any as (table & -> & Htable).
    unfold bind. rewrite Hget. unfold ret, translate, revcomp.
    do 4 f_equal. apply map_ext. intros c. apply Htable.
  - unfold revcomp. by rewrite length_rev, length_map.
  - unfold revcomp. rewrite map_rev, rev_involutive, map_map.
    rewrite <- (map_id sequence) at 2. apply map_ext.
    intros c. apply base_complement_twice.
  - intros i c Hi Hc. unfold revcomp. unfold pystr in *.
    pose proof (lookup_lt_Some _ _ _ Hi) as Hlt.
    rewrite rev_alt.
    change (rev_append ?l []) with (reverse l).
    rewrite reverse_lookup by (rewrite length_map; lia).
    rewrite length_map.
    replace (length sequence - S (length sequence - S i))%nat with i by lia.
    change (map ?f ?l) with (f <$> l). rewrite list_lookup_fmap, Hi. cbn.
    f_equal. unfold base_complement.
    repeat (case_decide; [subst c; exfalso; apply Hc; cbn; set_solver|]).
    reflexivity.
Qed.

(** The notebook's gene. *)
Lemma Dna_reverse_complement_any_string_witness :
  Dna_reverse_complement example_dna_self example_dna.2
  = (Ok (VStr (str "CTATGTCTTGGTCGCAGT")), example_dna.2).
Proof.
  refine (proj1 (Dna_reverse_complement_any_string example_dna.2
                   example_dna_self (str "ACTGCGACCAAGACATAG") _)).
  vm_compute. reflexivity.
Defined.



End DnaAnyStringFacts.

(** * Properties of the choice of features *)

Section SelectFacts.
Import Select.

Variable high_corr : list (string * string).

Lemma elem_of_correlated_with (feat1 feat2 : string) :
  feat2 ∈ correlated_with high_corr feat1 <-> (feat1, feat2) ∈ high_corr.
Proof.
  unfold correlated_with. rewrite list_elem_of_fmap. split.
  - intros ([a b] & -> & [Ha Hin]%list_elem_of_filter). cbn in *. by subst a.
  - intros Hin. exists (feat1, feat2). split; [reflexivity|].
    by apply list_elem_of_filter.
Qed.

Lemma elem_of_discard_all (discarded : gset string) (feats : list string)
    (x : string) :
  x ∈ foldl (fun discarded feat2 => {[feat2]} ∪ discarded) discarded feats
  <-> x ∈ discarded \/ x ∈ feats.
Proof.
  revert discarded. induction feats as [|f feats IH]; intros discarded; cbn.
  - set_solver.
  - rewrite IH. set_solver.
Qed.

Lemma select_features_snoc (visited : list string) (feat1 : string) :
  select_features (visited ++ [feat1]) high_corr
  = visit high_corr (select_features visited high_corr) feat1.
Proof. unfold select_features. by rewrite foldl_app. Qed.

(** What the loop keeps true after every feature it has visited. *)
Lemma select_features_invariant (visited : list string) :
  let sets := select_features visited high_corr in
  (forall s, s ∈ sets.1 -> s ∈ visited)
  /\ (forall s d, s ∈ sets.1 -> (s, d) ∈ high_corr -> d ∈ sets.2)
  /\ (forall d, d ∈ sets.2 -> exists s, s ∈ sets.1 /\ (s, d) ∈ high_corr)
  /\ (forall f, f ∈ visited -> f ∈ sets.1 \/ f ∈ sets.2).
Proof.
  induction visited as [|feat1 visited IH] using rev_ind.
  - cbn. set_solver.
  - rewrite select_features_snoc.
    destruct (select_features visited high_corr) as [saved discarded].
    cbn in IH. destruct IH as (Hvis & Hall & Hpartner & Hcover).
    unfold visit. cbn [fst snd].
    destruct (decide (feat1 ∈ discarded)) as [Hin|Hout]; cbn [fst snd].
    + split; [|split; [|split]]; [set_solver | done | done |].
      intros f [Hf | ->%list_elem_of_singleton]%elem_of_app; auto.
    + split; [|split; [|split]].
      * set_solver.
      * intros s d Hs Hsd. apply elem_of_discard_all.
        apply elem_of_union in Hs as [->%elem_of_singleton | Hs].
        -- right. by apply elem_of_correlated_with.
        -- left. by apply (Hall s).
      * intros d [Hd | Hd%elem_of_correlated_with]%elem_of_discard_all.
        -- destruct (Hpartner d Hd) as (s & Hs & Hsd). exists s. set_solver.
        -- exists feat1. set_solver.
      * intros f [Hf | ->%list_elem_of_singleton]%elem_of_app.
        -- destruct (Hcover f Hf) as [?|?]; [left; set_solver|].
           right. apply elem_of_discard_all. by left.
        -- left. set_solver.
Qed.

(** With a correlation that is symmetric and has no pair of a feature
    with itself, a saved feature is never discarded. *)
Lemma select_features_disjoint (visited : list string) :
  (forall a b, (a, b) ∈ high_corr -> (b, a) ∈ high_corr) ->
  (forall a, (a, a) ∉ high_corr) ->
  let sets := select_features visited high_corr in
  forall f, f ∈ sets.1 -> f ∉ sets.2.
Proof.
  intros Hsym Hirr.
  induction visited as [|feat1 visited IH] using rev_ind.
  - cbn. set_solver.
  - pose proof (select_features_invariant visited) as (_ & Hall & _ & _).
    rewrite select_features_snoc.
    destruct (select_features visited high_corr) as [saved discarded].
    cbn in IH, Hall. unfold visit. cbn [fst snd].
    destruct (decide (feat1 ∈ discarded)) as [Hin|Hout]; cbn [fst snd];
      [exact IH|].
    intros f Hf [Hd | Hd%elem_of_correlated_with]%elem_of_discard_all.
    + apply elem_of_union in Hf as [->%elem_of_singleton | Hf]; [done|].
      by apply (IH f).
    + apply elem_of_union in Hf as [->%elem_of_singleton | Hf].
      * by apply (Hirr feat1).
      * apply Hout, (Hall f feat1 Hf), Hsym, Hd.
Qed.

Lemma elem_of_kept_columns (columns : list string) (discarded : gset string)
    (c : string) :
  c ∈ kept_columns columns discarded <-> c ∈ columns /\ c ∉ discarded.
Proof.
  unfold kept_columns. rewrite merge_sort_Permutation, elem_of_elements.
  set_solver.
Qed.

(** X1: Whatever the order in which the features are visited, as long as
    every feature with a high correlation is visited: of two features with
    a high correlation, at least one is discarded, so that no two columns
    kept in [df] have a correlation above the bound. *)
Theorem kept_columns_are_not_correlated
    (order columns : list string) (c1 c2 : string) :
  (forall f, f ∈ high_corr.*1 -> f ∈ order) ->
  let discarded := (select_features order high_corr).2 in
  (c1, c2) ∈ high_corr ->
  (c1 ∈ discarded \/ c2 ∈ discarded)
  /\ ~ (c1 ∈ kept_columns columns discarded
        /\ c2 ∈ kept_columns columns discarded).
Proof.
  intros Hcover discarded Hpair.
  pose proof (select_features_invariant order) as (_ & Hall & _ & Hvis).
  assert (c1 ∈ discarded \/ c2 ∈ discarded) as Hone.
  { destruct (Hvis c1) as [Hs | Hd].
    - apply Hcover, list_elem_of_fmap. by exists (c1, c2).
    - right. by apply (Hall c1).
    - by left. }
  split; [exact Hone|].
  intros [[_ H1]%elem_of_kept_columns [_ H2]%elem_of_kept_columns].
  by destruct Hone.
Qed.

(** X2: When the features visited are those with a high correlation: every
    one of them is saved or discarded, every saved feature is one of them,
    and every discarded feature has a high correlation with a saved one,
    which stands for it. *)
Theorem discarded_features_have_a_saved_partner (order : list string) :
  (forall f, f ∈ order <-> f ∈ high_corr.*1) ->
  let sets := select_features order high_corr in
  (forall f, f ∈ high_corr.*1 -> f ∈ sets.1 \/ f ∈ sets.2)
  /\ (forall s, s ∈ sets.1 -> s ∈ high_corr.*1)
  /\ (forall d, d ∈ sets.2 -> exists s, s ∈ sets.1 /\ (s, d) ∈ high_corr).
Proof.
  intros Horder sets.
  pose proof (select_features_invariant order) as (Hsaved & _ & Hpartner & Hvis).
  split; [|split].
  - intros f Hf. by apply Hvis, Horder.
  - intros f Hf. by apply Horder, Hsaved.
  - exact Hpartner.
Qed.

(** X3: With a symmetric correlation without the diagonal (as [df.corr()] with
    the diagonal set to NaN gives): no feature is both saved and discarded,
    no two saved features have a high correlation, and every saved column
    is kept. *)
Theorem saved_features_are_kept (order columns : list string) :
  (forall a b, (a, b) ∈ high_corr -> (b, a) ∈ high_corr) ->
  (forall a, (a, a) ∉ high_corr) ->
  let sets := select_features order high_corr in
  (forall f, f ∈ sets.1 -> f ∉ sets.2)
  /\ (forall s1 s2, s1 ∈ sets.1 -> s2 ∈ sets.1 -> (s1, s2) ∉ high_corr)
  /\ (forall f, f ∈ sets.1 -> f ∈ columns -> f ∈ kept_columns columns sets.2).
Proof.
  intros Hsym Hirr sets.
  pose proof (select_features_disjoint order Hsym Hirr) as Hdisj.
  pose proof (select_features_invariant order) as (_ & Hall & _ & _).
  split; [exact Hdisj|]. split.
  - intros s1 s2 H1 H2 Hpair. apply (Hdisj s2 H2). by apply (Hall s1).
  - intros f Hf Hcol. apply elem_of_kept_columns. split; [done|]. by apply Hdisj.
Qed.

End SelectFacts.

Section SortedFacts.
Import Select.

#[local] Instance str_le_total : Total str_le.
Proof. intros a b. apply String.leb_total. Qed.

(** X4: The columns kept are those of [df] that are not discarded, each once,
    in the order of [sorted]. *)
Theorem kept_columns_sorted (columns : list string) (discarded : gset string) :
  Sorted str_le (kept_columns columns discarded)
  /\ NoDup (kept_columns columns discarded)
  /\ forall c, c ∈ kept_columns columns discarded
               <-> c ∈ columns /\ c ∉ discarded.
Proof.
  split; [|split].
  - apply Sorted_merge_sort. apply _.
  - unfold kept_columns. rewrite merge_sort_Permutation. apply NoDup_elements.
  - intros c. apply elem_of_kept_columns.
Qed.

End SortedFacts.

(** Three features in a chain, a fourth one apart; [b] is visited first. *)
Lemma kept_columns_are_not_correlated_witness :
  let high_corr := [("a", "b"); ("b", "a"); ("b", "c"); ("c", "b")] in
  Select.select_features ["b"; "a"; "c"] high_corr = ({["b"]}, {["a"; "c"]})
  /\ Select.kept_columns ["d"; "c"; "b"; "a"] {["a"; "c"]} = ["b"; "d"]
  /\ ("a" ∈ (Select.select_features ["b"; "a"; "c"] high_corr).2
      \/ "b" ∈ (Select.select_features ["b"; "a"; "c"] high_corr).2).
Proof.
  intros high_corr.
  split; [vm_compute; reflexivity|]. split; [vm_compute; reflexivity|].
  refine (proj1 (kept_columns_are_not_correlated high_corr ["b"; "a"; "c"]
                   ["d"; "c"; "b"; "a"] "a" "b" _ _)).
  - intros f Hf. cbn in Hf. set_solver.
  - left.
Defined.

Lemma discarded_features_have_a_saved_partner_witness :
  let high_corr := [("a", "b"); ("b", "a"); ("b", "c"); ("c", "b")] in
  Select.select_features ["b"; "a"; "c"] high_corr = ({["b"]}, {["a"; "c"]})
  /\ exists s, s ∈ (Select.select_features ["b"; "a"; "c"] high_corr).1
               /\ (s, "c") ∈ high_corr.
Proof.
  intros high_corr. split; [vm_compute; reflexivity|].
  refine (proj2 (proj2 (discarded_features_have_a_saved_partner high_corr
                          ["b"; "a"; "c"] _)) "c" _).
  - intros f. cbn. set_solver.
  - vm_compute. set_solver.
Defined.

Lemma saved_features_are_kept_witness :
  let high_corr := [("a", "b"); ("b", "a"); ("b", "c"); ("c", "b")] in
  Select.select_features ["b"; "a"; "c"] high_corr = ({["b"]}, {["a"; "c"]})
  /\ "b" ∈ Select.kept_columns ["d"; "c"; "b"; "a"]
             (Select.select_features ["b"; "a"; "c"] high_corr).2.
Proof.
  intros high_corr. split; [vm_compute; reflexivity|].
  refine (proj2 (proj2 (saved_features_are_kept high_corr ["b"; "a"; "c"]
                          ["d"; "c"; "b"; "a"] _ _)) "b" _ _).
  - intros a b Hab. unfold high_corr in *. set_solver.
  - intros a Ha. unfold high_corr in *. set_solver.
  - vm_compute. set_solver.
  - set_solver.
Defined.

(** * More properties of the image-analysis notebook *)

Section ClippedSubtractionFacts.
Import Img.

Variable w : Z.
Variable uniform_filter : arr Z -> Z -> arr Z.

(** X5: On pixels of [w] bits the guard against the wrap-around makes the
    subtraction a clipped one: the subtracted image is
    [max(0, nuc_smooth - nuc_smooth_bg)] at every position, and [nuc_mask]
    is true exactly where [nuc_smooth] exceeds the local background by
    more than 10. *)
Theorem nuc_mask_is_above_background (nuc_smooth : arr Z) :
  shape (uniform_filter nuc_smooth 20) = shape nuc_smooth ->
  Forall (fun x => 0 <= x < 2 ^ w) (ravel nuc_smooth) ->
  Forall (fun b => 0 <= b < 2 ^ w) (ravel (uniform_filter nuc_smooth 20)) ->
  exists nuc_smooth_bg nuc_smooth_bgsub,
    adaptive_background_subtraction w uniform_filter nuc_smooth
      = Some (nuc_smooth_bg, nuc_smooth_bgsub)
    /\ forall p x b,
         at_pos nuc_smooth p = Some x ->
         at_pos nuc_smooth_bg p = Some b ->
         at_pos nuc_smooth_bgsub p = Some (Z.max 0 (x - b))
         /\ (at_pos (apply_threshold nuc_smooth_bgsub) p = Some true
             <-> b + 10 < x).
Proof.
  intros Hbg Hx Hb. symmetry in Hbg.
  pose proof (shape_zip_with (usub w) _ _ Hbg) as Hsub.
  pose proof (shape_zip_with Z.ltb _ _ Hbg) as Hbelow.
  unfold adaptive_background_subtraction, set_where.
  rewrite !elementwise_Some by done. cbn.
  rewrite elementwise_Some by congruence.
  cbn. do 2 eexists. split; [reflexivity|].
  intros p x b Hpx Hpb.
  assert (0 <= x < 2 ^ w) as Rx.
  { rewrite Forall_forall in Hx. apply Hx, elem_of_ravel. eauto. }
  assert (0 <= b < 2 ^ w) as Rb.
  { rewrite Forall_forall in Hb. apply Hb, elem_of_ravel. eauto. }
  assert (at_pos
            (zip_with (zip_with (fun (x : Z) (m : bool) => if m then 0 else x))
               (zip_with (zip_with (usub w)) nuc_smooth
                  (uniform_filter nuc_smooth 20))
               (zip_with (zip_with Z.ltb) nuc_smooth
                  (uniform_filter nuc_smooth 20))) p
          = Some (Z.max 0 (x - b))) as Hval.
  { rewrite !at_pos_zip_with, Hpx, Hpb. cbn. f_equal.
    destruct (Z.ltb_spec x b); [lia|].
    unfold usub. rewrite Z.mod_small by lia. lia. }
  split; [exact Hval|].
  unfold apply_threshold. rewrite at_pos_scalar_op, Hval. cbn.
  destruct (Z.ltb_spec 10 (Z.max 0 (x - b))); split; intros H'; try done; lia.
Qed.

End ClippedSubtractionFacts.

Lemma nuc_mask_is_above_background_witness :
  exists nuc_smooth_bg nuc_smooth_bgsub,
    Img.adaptive_background_subtraction 8
        (fun input _ => Img.scalar_op (fun _ => 7) input)
        [[1; 9; 30]; [7; 8; 6]]
      = Some (nuc_smooth_bg, nuc_smooth_bgsub)
    /\ nuc_smooth_bgsub = [[0; 2; 23]; [0; 1; 0]].
Proof.
  destruct (nuc_mask_is_above_background 8
              (fun input _ => Img.scalar_op (fun _ => 7) input)
              [[1; 9; 30]; [7; 8; 6]])
    as (bg & bgsub & Hrun & _).
  - reflexivity.
  - cbn. repeat constructor; lia.
  - cbn. repeat constructor; lia.
  - exists bg, bgsub. split; [exact Hrun|].
    vm_compute in Hrun. by injection Hrun as <- <-.
Defined.

Section ThresholdFacts.
Import Img.

(** X6: The slider of [threshold_plot]: at 10 the mask shown is the
    [nuc_mask] of the pipeline; a higher threshold can only take pixels
    out of the mask; at a threshold that no pixel exceeds the mask is
    empty. *)
Theorem threshold_mask_shrinks (t1 t2 : Z) (nuc_smooth_bgsub : arr Z) :
  t1 <= t2 ->
  Paint.threshold_mask 10 nuc_smooth_bgsub = apply_threshold nuc_smooth_bgsub
  /\ (forall p, at_pos (Paint.threshold_mask t2 nuc_smooth_bgsub) p = Some true ->
                at_pos (Paint.threshold_mask t1 nuc_smooth_bgsub) p = Some true)
  /\ (Forall (fun x => x <= t2) (ravel nuc_smooth_bgsub) ->
      forall p, at_pos (Paint.threshold_mask t2 nuc_smooth_bgsub) p <> Some true).
Proof.
  intros Hle. split; [reflexivity|]. unfold Paint.threshold_mask. split.
  - intros p. rewrite !at_pos_scalar_op.
    destruct (at_pos nuc_smooth_bgsub p) as [x|]; cbn; [|done].
    intros [= H]. f_equal. apply Z.ltb_lt. apply Z.ltb_lt in H. lia.
  - intros Hall p. rewrite at_pos_scalar_op.
    destruct (at_pos nuc_smooth_bgsub p) as [x|] eqn:Hp; cbn; [|done].
    intros [= H]. apply Z.ltb_lt in H.
    rewrite Forall_forall in Hall.
    assert (x <= t2) by (apply Hall, elem_of_ravel; eauto). lia.
Qed.

Lemma threshold_mask_shrinks_witness :
  Paint.threshold_mask 10 [[0; 2; 23]; [0; 11; 0]]
  = apply_threshold [[0; 2; 23]; [0; 11; 0]]
  /\ Paint.threshold_mask 12 [[0; 2; 23]; [0; 11; 0]]
     = [[false; false; true]; [false; false; false]].
Proof.
  split; [|reflexivity].
  refine (proj1 (threshold_mask_shrinks 10 12 [[0; 2; 23]; [0; 11; 0]] _)).
  lia.
Defined.

End ThresholdFacts.

Section SeedFacts.
Import Img.

Variable watershed : arr float -> arr Z -> arr Z.




End SeedFacts.

Section RegionErrorFacts.
Import Img.

Lemma column_None (props : list region) (k : string) (r : region) :
  r ∈ props -> r !! k = None -> column props k = None.
Proof.
  intros Hin Hr. unfold column.
  assert (mapM (fun r : region => r !! k) props = None) as ->; [|done].
  apply mapM_None, Exists_exists. by exists r.
Qed.

Lemma fill_columns_from_None (props : list region) (names : list string) :
  foldl (fun (acc : option (gmap string (list scalar))) prop_name =>
           propdict ← acc;
           values ← column props prop_name;
           Some (<[prop_name := values]> propdict))
        None names = None.
Proof. induction names as [|name names IH]; [reflexivity | exact IH]. Qed.

Lemma fill_columns_None (props : list region) (names : list string)
    (k : string) (acc : option (gmap string (list scalar))) :
  k ∈ names ->
  column props k = None ->
  foldl (fun acc prop_name =>
           propdict ← acc;
           values ← column props prop_name;
           Some (<[prop_name := values]> propdict))
        acc names = None.
Proof.
  intros Hin Hcol. revert acc.
  induction names as [|name names IH]; intros acc; [by apply elem_of_nil in Hin|].
  cbn. apply elem_of_cons in Hin as [<- | Hin]; [|by apply IH].
  destruct acc as [propdict|]; cbn; rewrite ?Hcol; cbn;
    apply fill_columns_from_None.
Qed.

(** X8: [props2dict] raises on an empty list of records (there is no first
    record), and when a record lacks a property that is a number in the
    first record. *)
Theorem props2dict_fails_on_a_missing_property
    (props : list region) (first r : region) (k : string) (v : prop_value) :
  props !! 0%nat = Some first ->
  first !! k = Some v ->
  is_tuple_or_ndarray v = false ->
  r ∈ props ->
  r !! k = None ->
  props2dict props = None /\ props2dict [] = None.
Proof.
  intros Hfirst Hk Hs Hr Hmiss. split; [|reflexivity].
  unfold props2dict. rewrite Hfirst. cbn.
  apply (fill_columns_None props _ k); [|by apply (column_None props k r)].
  apply list_elem_of_fmap. exists (k, []). split; [reflexivity|].
  apply elem_of_map_to_list. rewrite lookup_fmap.
  by rewrite (proj2 (map_lookup_filter_Some _ first k v) (conj Hk Hs)).
Qed.

(** The second record has no mean intensity. *)
Lemma props2dict_fails_on_a_missing_property_witness :
  props2dict [example_region 1 12.5 3 4;
              <["label" := PScalar (SInt 2)]> ∅] = None.
Proof.
  refine (proj1 (props2dict_fails_on_a_missing_property
                   [example_region 1 12.5 3 4; <["label" := PScalar (SInt 2)]> ∅]
                   (example_region 1 12.5 3 4)
                   (<["label" := PScalar (SInt 2)]> ∅)
                   "mean_intensity" (PScalar (SFloat 12.5)) _ _ _ _ _)).
  - reflexivity.
  - reflexivity.
  - reflexivity.
  - right. left.
  - reflexivity.
Defined.

End RegionErrorFacts.

Section BackmapFacts.
Import Img.

Variable nuc_labeled : arr Z.
Variable propdict_act : gmap string (list scalar).
Variable color_prop : string.
Variable values : list scalar.
Hypothesis color_prop_values : propdict_act !! color_prop = Some values.

Lemma paint_rows_spec (labels : list scalar) (row : nat) (colored : arr float) :
  shape colored = shape nuc_labeled ->
  (row + length labels <= length values)%nat ->
  exists out,
    Paint.paint_rows nuc_labeled propdict_act color_prop row labels colored
      = Some out
    /\ shape out = shape nuc_labeled
    /\ forall p x c,
         at_pos nuc_labeled p = Some x ->
         at_pos colored p = Some c ->
         ((forall l, l ∈ labels -> Paint.label_eq x l = false) ->
          at_pos out p = Some c)
         /\ (forall i l v,
               labels !! i = Some l ->
               Paint.label_eq x l = true ->
               (forall j l', (i < j)%nat -> labels !! j = Some l' ->
                             Paint.label_eq x l' = false) ->
               values !! (row + i)%nat = Some v ->
               at_pos out p = Some (Paint.to_float v)).
Proof.
  revert row colored.
  induction labels as [|label rest IH]; intros row colored Hshape Hlen.
  - exists colored. split; [reflexivity|]. split; [exact Hshape|].
    intros p x c Hx Hc. split; [done|]. intros i l v Hi. discriminate Hi.
  - cbn in Hlen. cbn [Paint.paint_rows]. rewrite color_prop_values. cbn.
    destruct (lookup_lt_is_Some_2 values row) as [v0 Hv0]; [lia|].
    rewrite Hv0. cbn. unfold set_where.
    rewrite elementwise_Some by (by rewrite shape_scalar_op).
    cbn.
    set (painted := zip_with (zip_with (fun (x : float) (m : bool) =>
                                          if m then Paint.to_float v0 else x))
                      colored
                      (scalar_op (fun x => Paint.label_eq x label) nuc_labeled)).
    assert (shape painted = shape nuc_labeled) as Hpainted.
    { unfold painted. rewrite shape_zip_with by (by rewrite shape_scalar_op).
      exact Hshape. }
    destruct (IH (S row) painted Hpainted) as (out & Hrun & Hout & Hspec);
      [lia|].
    exists out. split; [exact Hrun|]. split; [exact Hout|].
    intros p x c Hx Hc.
    assert (at_pos painted p
            = Some (if Paint.label_eq x label then Paint.to_float v0 else c))
      as Hp.
    { unfold painted. by rewrite at_pos_zip_with, at_pos_scalar_op, Hc, Hx. }
    destruct (Hspec p x _ Hx Hp) as [Hnone Hlast].
    split.
    + intros Hno. rewrite Hnone.
      * by rewrite (Hno label) by left.
      * intros l Hl. apply Hno. by right.
    + intros [|i] l v Hi Hl Hlater Hv.
      * injection Hi as ->. rewrite Nat.add_0_r, Hv0 in Hv. injection Hv as ->.
        rewrite Hnone; [by rewrite Hl|].
        intros l' [j Hj]%list_elem_of_lookup.
        apply (Hlater (S j) l'); [lia | exact Hj].
      * apply (Hlast i l v Hi Hl).
        -- intros j l' Hij Hj. apply (Hlater (S j) l'); [lia | exact Hj].
        -- by rewrite <- Nat.add_succ_comm in Hv.
Qed.

End BackmapFacts.

Section BackmapCellFacts.
Import Img.

(** X9: The map of the nuclei coloured by their area: given the labels of
    [propdf] and as many areas in [propdict_act], the image has the shape
    of [nuc]; a pixel whose label is none of the labels (the background)
    is 0, and a pixel of a nucleus carries the area of the row of its
    label (the last such row, should a label occur twice). *)
Theorem backmap_paints_each_nucleus
    (nuc nuc_labeled : arr Z) (propdf propdict_act : gmap string (list scalar))
    (labels areas : list scalar) :
  shape nuc = shape nuc_labeled ->
  propdf !! "label" = Some labels ->
  propdict_act !! "area" = Some areas ->
  (length labels <= length areas)%nat ->
  exists nuc_propcolored,
    Paint.backmap nuc nuc_labeled propdf propdict_act = Some nuc_propcolored
    /\ shape nuc_propcolored = shape nuc
    /\ forall p x,
         at_pos nuc_labeled p = Some x ->
         ((forall l, l ∈ labels -> Paint.label_eq x l = false) ->
          at_pos nuc_propcolored p = Some 0%float)
         /\ (forall i l v,
               labels !! i = Some l ->
               Paint.label_eq x l = true ->
               (forall j l', (i < j)%nat -> labels !! j = Some l' ->
                             Paint.label_eq x l' = false) ->
               areas !! i = Some v ->
               at_pos nuc_propcolored p = Some (Paint.to_float v)).
Proof.
  intros Hshape Hlabels Hareas Hlen.
  unfold Paint.backmap. rewrite Hlabels. cbn.
  destruct (paint_rows_spec nuc_labeled propdict_act "area" areas Hareas
              labels 0 (scalar_op (fun _ => 0%float) nuc))
    as (out & Hrun & Hout & Hspec).
  { by rewrite shape_scalar_op. }
  { lia. }
  exists out. split; [exact Hrun|]. split; [congruence|].
  intros p x Hx.
  assert (at_pos (scalar_op (fun _ : Z => 0%float) nuc) p = Some 0%float) as H0.
  { rewrite at_pos_scalar_op.
    assert (is_Some (at_pos nuc p)) as [y ->]; [|reflexivity].
    unfold at_pos in *. unfold shape in Hshape.
    destruct (nuc_labeled !! p.1) as [row|] eqn:Hrow; [|discriminate].
    cbn in Hx.
    assert (map length nuc !! p.1 = Some (length row)) as Hl.
    { rewrite Hshape. change (map ?f ?l) with (f <$> l).
      by rewrite list_lookup_fmap, Hrow. }
    change (map ?f ?l) with (f <$> l) in Hl. rewrite list_lookup_fmap in Hl.
    destruct (nuc !! p.1) as [row'|]; [|discriminate]. cbn in *.
    injection Hl as Hl. apply lookup_lt_is_Some. rewrite Hl.
    by apply lookup_lt_Some in Hx. }
  destruct (Hspec p x _ Hx H0) as [Hnone Hlast]. split; [exact Hnone|].
  intros i l v Hi Hl Hlater Hv. by apply (Hlast i l v).
Qed.

(** Two nuclei of areas 3 and 1 on a 2 x 3 image. *)
Lemma backmap_paints_each_nucleus_witness :
  Paint.backmap [[9; 9; 9]; [9; 9; 9]] [[1; 1; 0]; [1; 0; 2]]
    (<["label" := [SInt 1; SInt 2]]> ∅) (<["area" := [SInt 3; SInt 1]]> ∅)
  = Some [[3%float; 3%float; 0%float]; [3%float; 0%float; 1%float]].
Proof.
  destruct (backmap_paints_each_nucleus [[9; 9; 9]; [9; 9; 9]]
              [[1; 1; 0]; [1; 0; 2]]
              (<["label" := [SInt 1; SInt 2]]> ∅)
              (<["area" := [SInt 3; SInt 1]]> ∅)
              [SInt 1; SInt 2] [SInt 3; SInt 1])
    as (colored & Hrun & _).
  - reflexivity.
  - reflexivity.
  - reflexivity.
  - cbn. lia.
  - rewrite Hrun. vm_compute in Hrun. by injection Hrun as <-.
Defined.

End BackmapCellFacts.
